(** * The Dify version-upgrade migration pipeline

    A shallow embedding of [dify-cdk/lib/S3/s3-stack.ts]
    ([DifyMigrationConstruct]: the gate [shouldRunMigration] and the four
    job factories), of [dify-cdk/lib/database/db-migration-construct.ts]
    ([DatabaseMigrationConstruct]) and of the [DifyConfig.migration] block of
    the configuration types, followed by the properties of the pipeline. *)

From Stdlib Require Import ZArith String Ascii List Bool Lia.
From stdpp Require Import base option list strings gmap pretty.

Set Warnings "-register-all".

Local Open Scope string_scope.
Local Open Scope list_scope.
Local Open Scope Z_scope.

(** ** JavaScript values used by the constructs *)

Module JS.

(** Truthiness of an optional boolean field: [undefined] and [false] are
    falsy. *)
Definition truthy_bool (o : option bool) : bool :=
  match o with
  | Some b => b
  | None => false
  end.

(** Truthiness of an optional string field: [undefined] and the empty
    string are falsy. *)
Definition truthy_string (o : option string) : bool :=
  match o with
  | Some EmptyString => false
  | Some (String _ _) => true
  | None => false
  end.

(** [a || d] on an optional string. *)
Definition or_string (o : option string) (d : string) : string :=
  match o with
  | Some (String c r) => String c r
  | _ => d
  end.

(** [a || d] on an optional number; the [number] fields of the
    configuration are modelled as integers.  A JavaScript number is a
    double: only on the safe integers below does the integer stand for the
    number itself and [pretty] for the text a template literal prints. *)
Definition or_number (o : option Z) (d : Z) : Z :=
  match o with
  | Some n => if n =? 0 then d else n
  | None => d
  end.

(** [Number.isSafeInteger(n)]: an integer of absolute value below 2^53.
    JavaScript prints these digit by digit, as [pretty] does; from 1e21 on
    it prints an exponent, and in between it prints the shortest digits
    that round to the double. *)
Definition isSafeInteger (n : Z) : bool := Z.abs n <? 2 ^ 53.

(** [s.split(sep)] for a one-character separator. *)
Fixpoint split (sep : ascii) (s : string) : list string :=
  match s with
  | EmptyString => [EmptyString]
  | String c rest =>
      if Ascii.eqb c sep then EmptyString :: split sep rest
      else match split sep rest with
           | hd :: tl => String c hd :: tl
           | [] => [String c EmptyString]
           end
  end.

(** [a[i]]: out of range reads give [undefined]. *)
Definition index (a : list string) (i : nat) : option string := a !! i.

Definition is_whitespace (c : ascii) : bool :=
  let n := nat_of_ascii c in
  (Nat.eqb n 32 || (Nat.leb 9 n && Nat.leb n 13))%bool.

Fixpoint trimStart (s : string) : string :=
  match s with
  | String c r => if is_whitespace c then trimStart r else s
  | EmptyString => EmptyString
  end.

Definition digit (radix : Z) (c : ascii) : option Z :=
  let n := Z.of_nat (nat_of_ascii c) in
  let v := if (48 <=? n) && (n <=? 57) then Some (n - 48)
           else if (97 <=? n) && (n <=? 122) then Some (n - 87)
           else if (65 <=? n) && (n <=? 90) then Some (n - 55)
           else None in
  match v with
  | Some d => if d <? radix then Some d else None
  | None => None
  end.

Fixpoint digits (radix : Z) (acc : option Z) (s : string) : option Z :=
  match s with
  | EmptyString => acc
  | String c r =>
      match digit radix c with
      | Some d => digits radix (Some (default 0 acc * radix + d)) r
      | None => acc
      end
  end.

(** [parseInt(s)] without a radix argument; [None] is [NaN].  The result
    is the mathematical value of the longest digit prefix (a JavaScript
    number rounds it to a double). *)
Definition parseInt (s : string) : option Z :=
  let s1 := trimStart s in
  let '(sign, s2) :=
    match s1 with
    | String "-"%char r => (-1, r)
    | String "+"%char r => (1, r)
    | _ => (1, s1)
    end in
  let '(radix, s3) :=
    match s2 with
    | String "0"%char (String "x"%char r) => (16, r)
    | String "0"%char (String "X"%char r) => (16, r)
    | _ => (10, s2)
    end in
  Z.mul sign <$> digits radix None s3.

(** [parseInt(v)] on a possibly [undefined] value: [undefined] is first
    converted to the string ["undefined"]. *)
Definition parseInt_value (v : option string) : option Z :=
  parseInt (default "undefined" v).

End JS.

(** ** Configuration ([DifyConfig] and [SystemConfig]) *)

Record Workers := {
  extract : option Z;
  install : option Z;
}.

Record MigrationConfig := {
  enabled : option bool;
  autoDetect : option bool;
  fromVersion : option string;
  backupEnabled : option bool;
  workers : option Workers;
  skipPluginMigration : option bool;
  marketplaceUrl : option string;
}.

Record DbMigrationConfig := {
  dbMigrationEnabled : option bool;
}.

Record DifyConfig := {
  version : option string;
  migration : option MigrationConfig;
  dbMigration : option DbMigrationConfig;
}.

Record SystemConfig := {
  isChinaRegion : option bool;
  dify : DifyConfig;
}.

(** Optional chaining [config.dify.migration?.f]. *)
Definition migration_field {A} (f : MigrationConfig -> option A)
    (c : SystemConfig) : option A :=
  migration (dify c) ≫= f.

Record DifyMigrationProps := {
  config : SystemConfig;
  cluster : string;
  namespace : string;
  dbEndpoint : string;
  dbPort : string;
  dbUsername : string;
  dbName : string;
  dbSecretName : string;
  imageRegistry : string;
  difyVersion : string;
  serviceAccountName : string;
}.

(** ** Shell scripts carried by the containers

    The [args] of every container is one [sh -c] script.  Scripts are kept
    as syntax trees, one node per command line of the source text; comment
    and blank lines are dropped.  TypeScript interpolations of the template
    literal are already expanded into the literals. *)

Module Sh.

Inductive Part :=
| Lit (s : string)
| CmdSubst (argv : list string).   (* $(argv) *)

Definition Word := list Part.

Inductive Cmd :=
| Echo (msg : Word) (redirect : option string)  (* echo msg [> file] *)
| Cd (dir : string)
| Export (var : string) (value : Word)
| SetErrexit                                    (* set -e *)
| Source (file : string)
| Cp (src dst : string)
| Touch (path : string)
| Sleep (seconds : Z)
| Run (argv : list string)                      (* any other program *)
| WhileNotFile (path : string) (body : list Cmd)
    (* while [ ! -f path ]; do body; done *)
| UntilRun (argv : list string) (body : list Cmd).
    (* until argv; do body; done *)

Definition Script := list Cmd.

End Sh.

(** ** Kubernetes resources declared by the constructs *)

Module K8s.

Record VolumeMount := {
  vm_name : string;
  vm_mountPath : string;
  vm_readOnly : option bool;
}.

Inductive EnvSource :=
| EnvValue (value : string)
| EnvSecretKeyRef (name key : string).

Record EnvVar := {
  env_name : string;
  env_source : EnvSource;
}.

Inductive VolumeSource :=
| PersistentVolumeClaimSource (claimName : string)
| SecretSource (secretName : string).

Record Volume := {
  vol_name : string;
  vol_source : VolumeSource;
}.

Record Container := {
  c_name : string;
  c_image : string;
  c_command : list string;
  c_args : Sh.Script;
  c_volumeMounts : list VolumeMount;
  c_env : list EnvVar;
  c_resources : option (list (string * string) * list (string * string));
    (* limits, requests *)
}.

Record Job := {
  job_name : string;
  job_namespace : string;
  job_labels : list (string * string);
  job_annotations : list (string * string);
  job_serviceAccountName : string;
  job_restartPolicy : string;
  job_initContainers : list Container;
  job_containers : list Container;
  job_volumes : list Volume;
  job_backoffLimit : option Z;
  job_activeDeadlineSeconds : option Z;
  job_ttlSecondsAfterFinished : option Z;
}.

Record PersistentVolumeClaim := {
  pvc_name : string;
  pvc_namespace : string;
  pvc_accessModes : list string;
  pvc_storage : string;
  pvc_storageClassName : string;
}.

Record ConfigMap := {
  cm_name : string;
  cm_namespace : string;
  cm_data : gmap string string;
}.

Inductive Resource :=
| RJob (j : Job)
| RPersistentVolumeClaim (p : PersistentVolumeClaim)
| RConfigMap (c : ConfigMap).

End K8s.

(** ** The construct tree and the effects of a constructor

    A constructor runs against the state of its own construct: the children
    created so far (in creation order), the dependency edges added with
    [node.addDependency], the lines written with [console.log] and the
    number of clock readings taken.  [new eks.KubernetesManifest(this, id, _)]
    throws when [id] is already the name of a child. *)

Record KubernetesManifest := {
  km_id : string;
  km_cluster : string;
  km_manifest : list K8s.Resource;
}.

Record Construct := {
  children : list KubernetesManifest;
  dependencies : list (string * string);   (* (dependent, dependency) *)
  console : list string;
  clockReads : nat;
}.

(** The state right after [super(scope, id)]. *)
Definition fresh (ticks : nat) (out : list string) : Construct :=
  {| children := []; dependencies := []; console := out; clockReads := ticks |}.

Record Clock := {
  Date_now : nat -> Z;           (* the n-th reading, in milliseconds *)
  toISOString : Z -> string;
}.

Inductive Error :=
| DuplicateChild (id : string)
| TypeError (what : string).

Inductive Result (A : Type) :=
| Ok (a : A)
| Throw (e : Error).
Arguments Ok {A} a.
Arguments Throw {A} e.

Definition M (A : Type) : Type := Construct -> Result (A * Construct).

#[global] Instance M_ret : MRet M := fun A a s => Ok (a, s).
#[global] Instance M_bind : MBind M := fun A B f m s =>
  match m s with
  | Ok (a, s') => f a s'
  | Throw e => Throw e
  end.

Definition throw {A} (e : Error) : M A := fun _ => Throw e.

Definition console_log (line : string) : M unit := fun s =>
  Ok (tt, {| children := children s; dependencies := dependencies s;
             console := console s ++ [line]; clockReads := clockReads s |}).

Definition readClock (clk : Clock) : M Z := fun s =>
  Ok (Date_now clk (clockReads s),
      {| children := children s; dependencies := dependencies s;
         console := console s; clockReads := S (clockReads s) |}).

Definition has_child (id : string) (s : Construct) : bool :=
  existsb (fun k => String.eqb (km_id k) id) (children s).

Definition newKubernetesManifest (id cl : string) (manifest : list K8s.Resource)
    : M string := fun s =>
  if has_child id s then Throw (DuplicateChild id)
  else Ok (id, {| children := children s ++ [{| km_id := id; km_cluster := cl;
                                                 km_manifest := manifest |}];
                  dependencies := dependencies s;
                  console := console s; clockReads := clockReads s |}).

Definition addDependency (dependent dependency : string) : M unit := fun s =>
  Ok (tt, {| children := children s;
             dependencies := dependencies s ++ [(dependent, dependency)];
             console := console s; clockReads := clockReads s |}).

(** ** [DifyMigrationConstruct] *)

Section DifyMigrationConstruct.

Variable props : DifyMigrationProps.

Definition shouldRunMigration : M bool :=
  let migrationConfig := migration (dify (config props)) in
  if negb (JS.truthy_bool (migrationConfig ≫= enabled)) then
    console_log "Migration disabled in configuration";;
    mret false
  else
    let currentVersion := difyVersion props in
    console_log ("Current Dify version: " +:+ currentVersion);;
    let versionParts := JS.split "." currentVersion in
    let major := JS.parseInt_value (JS.index versionParts 0) in
    let minor := JS.parseInt_value (JS.index versionParts 1) in
    let patch := JS.parseInt (JS.or_string (JS.index versionParts 2) "0") in
    match migrationConfig with
    | None => throw (TypeError "migrationConfig is undefined")
    | Some mc =>
        if JS.truthy_string (fromVersion mc) then
          console_log ("Migration configured from version "
                       +:+ default "" (fromVersion mc)
                       +:+ " to " +:+ currentVersion);;
          if JS.truthy_bool (skipPluginMigration mc) then
            console_log "Skipping plugin migration for fresh installation";;
            mret false
          else mret true
        else
          console_log ("No migration needed for version " +:+ currentVersion);;
          mret false
    end.

End DifyMigrationConstruct.

Section DifyMigrationJobs.

Variable props : DifyMigrationProps.
Variable clk : Clock.

(** The six [export] lines that open every stage body.  Four of them
    splice a value of the props between double quotes; the [Sh.Lit] is what
    the shell reads there when the value is [Splice.quotable] (see
    [shellSafe] below), and the properties of the bodies are stated for
    such props. *)
Definition dbConnection : Sh.Script :=
  [ Sh.Export "DB_USERNAME" [Sh.Lit (dbUsername props)];
    Sh.Export "DB_PASSWORD" [Sh.CmdSubst ["cat"; "/etc/dify/db-secret/password"]];
    Sh.Export "DB_HOST" [Sh.Lit (dbEndpoint props)];
    Sh.Export "DB_PORT" [Sh.Lit (dbPort props)];
    Sh.Export "DB_DATABASE" [Sh.Lit (dbName props)];
    Sh.Export "MIGRATION_ENABLED" [Sh.Lit "false"] ].

(** [volumeMounts], [env] and [volumes] of every stage body. *)
Definition stageVolumeMounts : list K8s.VolumeMount :=
  [ {| K8s.vm_name := "migration-data"; K8s.vm_mountPath := "/migration";
       K8s.vm_readOnly := None |};
    {| K8s.vm_name := "db-secret"; K8s.vm_mountPath := "/etc/dify/db-secret";
       K8s.vm_readOnly := Some true |} ].

Definition stageEnv : list K8s.EnvVar :=
  [ {| K8s.env_name := "PYTHONUNBUFFERED"; K8s.env_source := K8s.EnvValue "1" |};
    {| K8s.env_name := "LOG_LEVEL"; K8s.env_source := K8s.EnvValue "INFO" |} ].

Definition stageVolumes : list K8s.Volume :=
  [ {| K8s.vol_name := "migration-data";
       K8s.vol_source := K8s.PersistentVolumeClaimSource "dify-migration-pvc" |};
    {| K8s.vol_name := "db-secret";
       K8s.vol_source := K8s.SecretSource (dbSecretName props) |} ].

Definition apiImage : string :=
  imageRegistry props +:+ "langgenius/dify-api:" +:+ difyVersion props.

Definition migrationPvc : K8s.PersistentVolumeClaim :=
  {| K8s.pvc_name := "dify-migration-pvc";
     K8s.pvc_namespace := namespace props;
     K8s.pvc_accessModes := ["ReadWriteOnce"];
     K8s.pvc_storage := "5Gi";
     K8s.pvc_storageClassName := "gp3" |}.

Definition createMigrationPvc : M string :=
  newKubernetesManifest "migration-pvc" (cluster props)
    [K8s.RPersistentVolumeClaim migrationPvc].

Definition migrationConfigMap (date : Z) : K8s.ConfigMap :=
  {| K8s.cm_name := "dify-migration-status";
     K8s.cm_namespace := namespace props;
     K8s.cm_data :=
       <["status" := "pending"]>
       (<["fromVersion" :=
            JS.or_string (migration_field fromVersion (config props))
                         "unknown"]>
       (<["toVersion" := difyVersion props]>
       (<["timestamp" := toISOString clk date]> ∅))) |}.

Definition createMigrationConfigMap : M string :=
  date ← readClock clk;
  newKubernetesManifest "migration-configmap" (cluster props)
    [K8s.RConfigMap (migrationConfigMap date)].

Definition extractPluginsJob (now : Z) : K8s.Job :=
  {| K8s.job_name := "dify-extract-plugins-" +:+ pretty now;
     K8s.job_namespace := namespace props;
     K8s.job_labels := [("app", "dify-migration"); ("step", "extract-plugins")];
     K8s.job_annotations := [];
     K8s.job_serviceAccountName := serviceAccountName props;
     K8s.job_restartPolicy := "OnFailure";
     K8s.job_initContainers := [];
     K8s.job_containers :=
       [ {| K8s.c_name := "extract-plugins";
            K8s.c_image := apiImage;
            K8s.c_command := ["/bin/sh"; "-c"];
            K8s.c_args :=
              [ Sh.Echo [Sh.Lit "Starting plugin extraction..."] None;
                Sh.Cd "/app/api" ]
              ++ dbConnection ++
              [ Sh.Run ["poetry"; "run"; "flask"; "extract-plugins";
                        "--workers=" +:+
                        pretty (JS.or_number
                          (migration_field workers (config props) ≫= extract) 20)];
                Sh.Cp "plugins.jsonl" "/migration/plugins.jsonl";
                Sh.Echo [Sh.Lit "Plugin extraction completed. File saved to /migration/plugins.jsonl"] None;
                Sh.Run ["ls"; "-la"; "/migration/"] ];
            K8s.c_volumeMounts := stageVolumeMounts;
            K8s.c_env := stageEnv;
            K8s.c_resources := None |} ];
     K8s.job_volumes := stageVolumes;
     K8s.job_backoffLimit := Some 3;
     K8s.job_activeDeadlineSeconds := None;
     K8s.job_ttlSecondsAfterFinished := Some 3600 |}.

Definition createExtractPluginsJob (pvc configMap : string) : M string :=
  now ← readClock clk;
  job ← newKubernetesManifest "extract-plugins-job" (cluster props)
           [K8s.RJob (extractPluginsJob now)];
  addDependency job pvc;;
  addDependency job configMap;;
  mret job.

Definition installPluginsJob (now : Z) : K8s.Job :=
  {| K8s.job_name := "dify-install-plugins-" +:+ pretty now;
     K8s.job_namespace := namespace props;
     K8s.job_labels := [("app", "dify-migration"); ("step", "install-plugins")];
     K8s.job_annotations := [];
     K8s.job_serviceAccountName := serviceAccountName props;
     K8s.job_restartPolicy := "OnFailure";
     K8s.job_initContainers :=
       [ {| K8s.c_name := "wait-for-extraction";
            K8s.c_image := "busybox:1.35";
            K8s.c_command := ["sh"; "-c"];
            K8s.c_args :=
              [ Sh.Echo [Sh.Lit "Waiting for plugin extraction to complete..."] None;
                Sh.WhileNotFile "/migration/plugins.jsonl" [Sh.Sleep 5];
                Sh.Echo [Sh.Lit "Plugin extraction completed, proceeding with installation..."] None ];
            K8s.c_volumeMounts :=
              [ {| K8s.vm_name := "migration-data";
                   K8s.vm_mountPath := "/migration";
                   K8s.vm_readOnly := None |} ];
            K8s.c_env := [];
            K8s.c_resources := None |} ];
     K8s.job_containers :=
       [ {| K8s.c_name := "install-plugins";
            K8s.c_image := apiImage;
            K8s.c_command := ["/bin/sh"; "-c"];
            K8s.c_args :=
              [ Sh.Echo [Sh.Lit "Starting plugin installation..."] None;
                Sh.Cd "/app/api";
                Sh.Cp "/migration/plugins.jsonl" "./plugins.jsonl" ]
              ++ dbConnection ++
              [ Sh.Export "MARKETPLACE_URL"
                  [Sh.Lit (JS.or_string
                             (migration_field marketplaceUrl (config props))
                             "https://marketplace.dify.ai")];
                Sh.Run ["poetry"; "run"; "flask"; "install-plugins";
                        "--workers=" +:+
                        pretty (JS.or_number
                          (migration_field workers (config props) ≫= install) 2)];
                Sh.Echo [Sh.Lit "Plugin installation completed."] None;
                Sh.Touch "/migration/install-complete" ];
            K8s.c_volumeMounts := stageVolumeMounts;
            K8s.c_env := stageEnv;
            K8s.c_resources := None |} ];
     K8s.job_volumes := stageVolumes;
     K8s.job_backoffLimit := Some 3;
     K8s.job_activeDeadlineSeconds := None;
     K8s.job_ttlSecondsAfterFinished := Some 3600 |}.

Definition createInstallPluginsJob (pvc configMap previousJob : string) : M string :=
  now ← readClock clk;
  job ← newKubernetesManifest "install-plugins-job" (cluster props)
           [K8s.RJob (installPluginsJob now)];
  addDependency job previousJob;;
  mret job.

Definition dbUpgradeJob (now : Z) : K8s.Job :=
  {| K8s.job_name := "dify-db-upgrade-" +:+ pretty now;
     K8s.job_namespace := namespace props;
     K8s.job_labels := [("app", "dify-migration"); ("step", "db-upgrade")];
     K8s.job_annotations := [];
     K8s.job_serviceAccountName := serviceAccountName props;
     K8s.job_restartPolicy := "OnFailure";
     K8s.job_initContainers :=
       [ {| K8s.c_name := "wait-for-plugin-install";
            K8s.c_image := "busybox:1.35";
            K8s.c_command := ["sh"; "-c"];
            K8s.c_args :=
              [ Sh.Echo [Sh.Lit "Waiting for plugin installation to complete..."] None;
                Sh.WhileNotFile "/migration/install-complete" [Sh.Sleep 5];
                Sh.Echo [Sh.Lit "Plugin installation completed, proceeding with database upgrade..."] None ];
            K8s.c_volumeMounts :=
              [ {| K8s.vm_name := "migration-data";
                   K8s.vm_mountPath := "/migration";
                   K8s.vm_readOnly := None |} ];
            K8s.c_env := [];
            K8s.c_resources := None |} ];
     K8s.job_containers :=
       [ {| K8s.c_name := "db-upgrade";
            K8s.c_image := apiImage;
            K8s.c_command := ["/bin/sh"; "-c"];
            K8s.c_args :=
              [ Sh.Echo [Sh.Lit "Starting database upgrade..."] None;
                Sh.Cd "/app/api" ]
              ++ dbConnection ++
              [ Sh.Run ["poetry"; "run"; "flask"; "db"; "upgrade"];
                Sh.Echo [Sh.Lit "Database upgrade completed."] None;
                Sh.Touch "/migration/db-upgrade-complete" ];
            K8s.c_volumeMounts := stageVolumeMounts;
            K8s.c_env := stageEnv;
            K8s.c_resources := None |} ];
     K8s.job_volumes := stageVolumes;
     K8s.job_backoffLimit := Some 3;
     K8s.job_activeDeadlineSeconds := None;
     K8s.job_ttlSecondsAfterFinished := Some 3600 |}.

Definition createDbUpgradeJob (configMap previousJob : string) : M string :=
  now ← readClock clk;
  job ← newKubernetesManifest "db-upgrade-job" (cluster props)
           [K8s.RJob (dbUpgradeJob now)];
  addDependency job previousJob;;
  mret job.

Definition dataMigrationJob (now : Z) : K8s.Job :=
  {| K8s.job_name := "dify-data-migration-" +:+ pretty now;
     K8s.job_namespace := namespace props;
     K8s.job_labels := [("app", "dify-migration"); ("step", "data-migration")];
     K8s.job_annotations := [];
     K8s.job_serviceAccountName := serviceAccountName props;
     K8s.job_restartPolicy := "OnFailure";
     K8s.job_initContainers :=
       [ {| K8s.c_name := "wait-for-db-upgrade";
            K8s.c_image := "busybox:1.35";
            K8s.c_command := ["sh"; "-c"];
            K8s.c_args :=
              [ Sh.Echo [Sh.Lit "Waiting for database upgrade to complete..."] None;
                Sh.WhileNotFile "/migration/db-upgrade-complete" [Sh.Sleep 5];
                Sh.Echo [Sh.Lit "Database upgrade completed, proceeding with data migration..."] None ];
            K8s.c_volumeMounts :=
              [ {| K8s.vm_name := "migration-data";
                   K8s.vm_mountPath := "/migration";
                   K8s.vm_readOnly := None |} ];
            K8s.c_env := [];
            K8s.c_resources := None |} ];
     K8s.job_containers :=
       [ {| K8s.c_name := "data-migration";
            K8s.c_image := apiImage;
            K8s.c_command := ["/bin/sh"; "-c"];
            K8s.c_args :=
              [ Sh.Echo [Sh.Lit "Starting data migration for plugin compatibility..."] None;
                Sh.Echo [Sh.Lit "WARNING: This operation is irreversible. Ensure you have backups!"] None;
                Sh.Cd "/app/api" ]
              ++ dbConnection ++
              [ Sh.Run ["poetry"; "run"; "flask"; "migrate-data-for-plugin"];
                Sh.Echo [Sh.Lit "Data migration completed successfully."] None;
                Sh.Touch "/migration/migration-complete";
                Sh.Echo [Sh.Lit "Migration completed at "; Sh.CmdSubst ["date"]]
                        (Some "/migration/status.txt") ];
            K8s.c_volumeMounts := stageVolumeMounts;
            K8s.c_env := stageEnv;
            K8s.c_resources := None |} ];
     K8s.job_volumes := stageVolumes;
     K8s.job_backoffLimit := Some 3;
     K8s.job_activeDeadlineSeconds := None;
     K8s.job_ttlSecondsAfterFinished := Some 3600 |}.

Definition createDataMigrationJob (configMap previousJob : string) : M string :=
  now ← readClock clk;
  job ← newKubernetesManifest "data-migration-job" (cluster props)
           [K8s.RJob (dataMigrationJob now)];
  addDependency job previousJob;;
  mret job.

(** The body of the constructor, after [super(scope, id)]. *)
Definition constructorBody : M unit :=
  run ← shouldRunMigration props;
  if negb run then
    console_log "Migration skipped: Either disabled or not required for this version.";;
    mret tt
  else
    migrationPvc ← createMigrationPvc;
    migrationConfigMap ← createMigrationConfigMap;
    extractJob ← createExtractPluginsJob migrationPvc migrationConfigMap;
    installJob ← createInstallPluginsJob migrationPvc migrationConfigMap extractJob;
    dbUpgradeJob ← createDbUpgradeJob migrationConfigMap installJob;
    dataMigrationJob ← createDataMigrationJob migrationConfigMap dbUpgradeJob;
    mret tt.

(** [new DifyMigrationConstruct(scope, id, props)]: the constructor starts
    from a construct without children; [ticks] clock readings were taken
    and [out] was logged before. *)
Definition DifyMigrationConstruct (ticks : nat) (out : list string)
    : Result Construct :=
  match constructorBody (fresh ticks out) with
  | Ok (_, s) => Ok s
  | Throw e => Throw e
  end.

End DifyMigrationJobs.

(** ** [DatabaseMigrationConstruct]: the stand-alone [flask db upgrade] job *)

Record Database := {
  endpoint : string;
  port : string;
  username : string;
  secretName : string;
  database_dbName : string;
}.

Record DatabaseMigrationProps := {
  dm_config : SystemConfig;
  dm_cluster : string;
  dm_namespace : string;
  dm_database : Database;
  dm_serviceAccountName : string;
  dm_difyVersion : string;
  dm_imageRegistry : string;
}.

Section DatabaseMigrationConstruct.

Variable props : DatabaseMigrationProps.
Variable clk : Clock.

(** The job the construct declares.  The loop condition of the init
    container splices the endpoint, the port and the user name into the
    text outside any quotes; the argument vector below is what the shell
    makes of that line when each of the three is a [Splice.bareWord] (see
    [probeSafe] below). *)
Definition migrationJob (jobName imageRegistry : string) : K8s.Job :=
  let db := dm_database props in
  {| K8s.job_name := jobName;
     K8s.job_namespace := dm_namespace props;
     K8s.job_labels := [("app", "dify"); ("component", "db-migration")];
     K8s.job_annotations :=
       [ ("helm.sh/hook", "pre-install,pre-upgrade");
         ("helm.sh/hook-weight", "-10");
         ("helm.sh/hook-delete-policy", "before-hook-creation,hook-succeeded") ];
     K8s.job_serviceAccountName := dm_serviceAccountName props;
     K8s.job_restartPolicy := "OnFailure";
     K8s.job_initContainers :=
       [ {| K8s.c_name := "wait-for-db";
            K8s.c_image := "postgres:16-alpine";
            K8s.c_command := ["/bin/sh"; "-c"];
            K8s.c_args :=
              [ Sh.UntilRun ["pg_isready"; "-h"; endpoint db; "-p"; port db;
                             "-U"; username db]
                  [ Sh.Echo [Sh.Lit "Waiting for database..."] None;
                    Sh.Sleep 5 ];
                Sh.Echo [Sh.Lit "Database is ready!"] None ];
            K8s.c_volumeMounts := [];
            K8s.c_env :=
              [ {| K8s.env_name := "PGPASSWORD";
                   K8s.env_source := K8s.EnvSecretKeyRef (secretName db) "password" |} ];
            K8s.c_resources := None |} ];
     K8s.job_containers :=
       [ {| K8s.c_name := "migration";
            K8s.c_image := imageRegistry +:+ "langgenius/dify-api:"
                           +:+ dm_difyVersion props;
            K8s.c_command := ["/bin/bash"; "-c"];
            K8s.c_args :=
              [ Sh.SetErrexit;
                Sh.Echo [Sh.Lit "Starting database migration..."] None;
                Sh.Cd "/app/api";
                Sh.Source ".venv/bin/activate";
                Sh.Run ["flask"; "db"; "upgrade"];
                Sh.Echo [Sh.Lit "Database migration completed!"] None ];
            K8s.c_volumeMounts := [];
            K8s.c_env :=
              [ {| K8s.env_name := "DB_USERNAME";
                   K8s.env_source := K8s.EnvValue (username db) |};
                {| K8s.env_name := "DB_HOST";
                   K8s.env_source := K8s.EnvValue (endpoint db) |};
                {| K8s.env_name := "DB_PORT";
                   K8s.env_source := K8s.EnvValue (port db) |};
                {| K8s.env_name := "DB_DATABASE";
                   K8s.env_source := K8s.EnvValue (database_dbName db) |};
                {| K8s.env_name := "DB_PASSWORD";
                   K8s.env_source := K8s.EnvSecretKeyRef (secretName db) "password" |};
                {| K8s.env_name := "MIGRATION_ENABLED";
                   K8s.env_source := K8s.EnvValue "false" |};
                {| K8s.env_name := "PYTHONUNBUFFERED";
                   K8s.env_source := K8s.EnvValue "1" |} ];
            K8s.c_resources :=
              Some ([("cpu", "1"); ("memory", "2Gi")],
                    [("cpu", "500m"); ("memory", "1Gi")]) |} ];
     K8s.job_volumes := [];
     K8s.job_backoffLimit := Some 3;
     K8s.job_activeDeadlineSeconds := Some 600;
     K8s.job_ttlSecondsAfterFinished := Some 86400 |}.

(** The body of the constructor: [enabled !== true] returns at once. *)
Definition databaseMigrationBody : M unit :=
  match dbMigration (dify (dm_config props)) ≫= dbMigrationEnabled with
  | Some true =>
      now ← readClock clk;
      let jobName := "dify-db-migration-" +:+ pretty now in
      let imageRegistry :=
        if JS.truthy_bool (isChinaRegion (dm_config props))
        then "048912060910.dkr.ecr.cn-northwest-1.amazonaws.com.cn/dockerhub/"
        else "" in
      newKubernetesManifest "migration-job" (dm_cluster props)
        [K8s.RJob (migrationJob jobName imageRegistry)];;
      mret tt
  | _ => mret tt
  end.

Definition DatabaseMigrationConstruct (ticks : nat) (out : list string)
    : Result Construct :=
  match databaseMigrationBody (fresh ticks out) with
  | Ok (_, s) => Ok s
  | Throw e => Throw e
  end.

End DatabaseMigrationConstruct.

(** ** Reading a construct back *)

Definition resources (s : Construct) : list K8s.Resource :=
  concat (map km_manifest (children s)).

Definition jobs (s : Construct) : list K8s.Job :=
  omap (fun r => match r with K8s.RJob j => Some j | _ => None end) (resources s).

Definition configMaps (s : Construct) : list K8s.ConfigMap :=
  omap (fun r => match r with K8s.RConfigMap c => Some c | _ => None end)
       (resources s).

Definition claims (s : Construct) : list K8s.PersistentVolumeClaim :=
  omap (fun r => match r with K8s.RPersistentVolumeClaim c => Some c | _ => None end)
       (resources s).

(** The construct ids of the children that declare a [Job], in creation
    order. *)
Definition jobIds (s : Construct) : list string :=
  omap (fun k => match km_manifest k with
                 | [K8s.RJob _] => Some (km_id k)
                 | _ => None
                 end) (children s).

Definition step (j : K8s.Job) : option string :=
  snd <$> find (fun kv => String.eqb (fst kv) "step") (K8s.job_labels j).

(** The four stages of the chain, in chain order, for the clock readings
    taken when each was declared. *)
Definition chain (props : DifyMigrationProps) (t1 t2 t3 t4 : Z) : list K8s.Job :=
  [ extractPluginsJob props t1; installPluginsJob props t2;
    dbUpgradeJob props t3; dataMigrationJob props t4 ].

(** ** Running a script

    A script runs against the mounted volumes and a clock.  What the other
    pods and the outside world do is an [Env]: which files they have left in
    the mounted volumes at each instant, and how each external program ends
    (exit status and duration).  Time is counted in seconds; a test or a
    builtin takes no time.  [None] is a run that has not ended within the
    fuel. *)

Module Run.

Record Env := {
  present : Z -> string -> bool;
  program : list string -> Z -> Z * Z;
}.

Record State := {
  now : Z;
  written : list string;      (* files this script created or overwrote *)
  stdout : list Sh.Word;
  status : Z;                 (* $? *)
  errexit : bool;             (* set -e in force *)
  exited : bool;              (* the shell has left the script *)
}.

Definition start (t : Z) : State :=
  {| now := t; written := []; stdout := []; status := 0;
     errexit := false; exited := false |}.

Definition fileExists (env : Env) (s : State) (path : string) : bool :=
  existsb (String.eqb path) (written s) || present env (now s) path.

(** The end of a simple command: [set -e] leaves the script on a failure. *)
Definition finish (s : State) (t : Z) (files : list string)
    (out : list Sh.Word) (st : Z) : State :=
  {| now := t; written := written s ++ files; stdout := stdout s ++ out;
     status := st; errexit := errexit s;
     exited := errexit s && negb (st =? 0) |}.

Definition sequence (run : Sh.Cmd -> State -> option State)
    : list Sh.Cmd -> State -> option State :=
  fix go cs s :=
    match cs with
    | [] => Some s
    | c :: cs' =>
        match run c s with
        | Some s' => if exited s' then Some s' else go cs' s'
        | None => None
        end
    end.

(** [while cond; do body; done], at most [n] tests of the condition. *)
Fixpoint loop (n : nat) (cond : State -> bool * State)
    (body : State -> option State) (s : State) : option State :=
  match n with
  | O => None
  | S n' =>
      let '(go, s1) := cond s in
      if go then
        match body s1 with
        | Some s2 => if exited s2 then Some s2 else loop n' cond body s2
        | None => None
        end
      else Some s1
  end.

Fixpoint exec (env : Env) (fuel : nat) (c : Sh.Cmd) (s : State)
    : option State :=
  match fuel with
  | O => None
  | S f =>
      match c with
      | Sh.Echo msg None => Some (finish s (now s) [] [msg] 0)
      | Sh.Echo msg (Some file) => Some (finish s (now s) [file] [] 0)
      | Sh.Cd _ => Some (finish s (now s) [] [] 0)
      | Sh.Export _ _ => Some (finish s (now s) [] [] 0)
      | Sh.SetErrexit =>
          Some {| now := now s; written := written s; stdout := stdout s;
                  status := 0; errexit := true; exited := false |}
      | Sh.Source _ => Some (finish s (now s) [] [] 0)
      | Sh.Cp src dst =>
          if fileExists env s src then Some (finish s (now s) [dst] [] 0)
          else Some (finish s (now s) [] [] 1)
      | Sh.Touch path => Some (finish s (now s) [path] [] 0)
      | Sh.Sleep n => Some (finish s (now s + n) [] [] 0)
      | Sh.Run argv =>
          let '(st, d) := program env argv (now s) in
          Some (finish s (now s + d) [] [] st)
      | Sh.WhileNotFile path body =>
          loop fuel
            (fun s0 => (negb (fileExists env s0 path), s0))
            (sequence (exec env f) body)
            {| now := now s; written := written s; stdout := stdout s;
               status := 0; errexit := errexit s; exited := false |}
      | Sh.UntilRun argv body =>
          loop fuel
            (fun s0 =>
               let '(st, d) := program env argv (now s0) in
               (negb (st =? 0),
                {| now := now s0 + d; written := written s0;
                   stdout := stdout s0; status := status s0;
                   errexit := errexit s0; exited := false |}))
            (sequence (exec env f) body)
            {| now := now s; written := written s; stdout := stdout s;
               status := 0; errexit := errexit s; exited := false |}
      end
  end.

(** [sh -c script], started at time [t]. *)
Definition script (env : Env) (fuel : nat) (t : Z) (sc : Sh.Script)
    : option State :=
  sequence (exec env fuel) sc (start t).

(** How the entry procedure of a pod ends. *)
Inductive Entry :=
| BodyStarts (t : Z)          (* every init container exited 0 *)
| InitFails (st : Z)
| Waiting.                    (* still in an init container *)

(** The init containers of a pod run one after the other, each to its
    end, before the containers of the body start. *)
Fixpoint entry (env : Env) (fuel : nat) (t : Z) (inits : list K8s.Container)
    : Entry :=
  match inits with
  | [] => BodyStarts t
  | c :: rest =>
      match script env fuel t (K8s.c_args c) with
      | None => Waiting
      | Some s =>
          if status s =? 0 then entry env fuel (now s) rest
          else InitFails (status s)
      end
  end.

(** A container that has written nothing and runs without [set -e]. *)
Definition plain (s : State) : Prop :=
  written s = [] ∧ errexit s = false ∧ exited s = false.

(** The condition and the body of [while [ ! -f path ]; do sleep 5; done]
    as [exec] runs them with fuel [S f]. *)
Definition absent (env : Env) (path : string) (s : State) : bool * State :=
  (negb (fileExists env s path), s).

Definition nap (env : Env) (f : nat) : State -> option State :=
  sequence (exec env f) [Sh.Sleep 5].

End Run.

(** ** What a script can touch *)

Module Touches.

(** The files a command creates or overwrites by itself. *)
Fixpoint writes (c : Sh.Cmd) : list string :=
  match c with
  | Sh.Echo _ (Some file) => [file]
  | Sh.Cp _ dst => [dst]
  | Sh.Touch path => [path]
  | Sh.WhileNotFile _ body | Sh.UntilRun _ body =>
      (fix go cs := match cs with
                    | [] => []
                    | c' :: r => writes c' ++ go r
                    end) body
  | _ => []
  end.

Definition substituted (w : Sh.Word) : list (list string) :=
  omap (fun p => match p with Sh.CmdSubst argv => Some argv | Sh.Lit _ => None end) w.

(** The external programs a command starts, as argument vectors. *)
Fixpoint programs (c : Sh.Cmd) : list (list string) :=
  match c with
  | Sh.Echo msg _ => substituted msg
  | Sh.Export _ value => substituted value
  | Sh.Run argv => [argv]
  | Sh.WhileNotFile _ body =>
      (fix go cs := match cs with
                    | [] => []
                    | c' :: r => programs c' ++ go r
                    end) body
  | Sh.UntilRun argv body =>
      argv :: (fix go cs := match cs with
                            | [] => []
                            | c' :: r => programs c' ++ go r
                            end) body
  | _ => []
  end.

Definition scripts (j : K8s.Job) : list Sh.Script :=
  map K8s.c_args (K8s.job_initContainers j ++ K8s.job_containers j).

Definition jobWrites (j : K8s.Job) : list string :=
  flat_map (flat_map writes) (scripts j).



End Touches.

(** The completion marker of each stage, by ordinal. *)
Definition marker (ordinal : nat) : string :=
  match ordinal with
  | 1%nat => "/migration/plugins.jsonl"
  | 2%nat => "/migration/install-complete"
  | 3%nat => "/migration/db-upgrade-complete"
  | _ => "/migration/migration-complete"
  end.

(** ** The execution substrate *)

Module Substrate.

Inductive JobStatus := Complete | TerminalFailed.

(** Modelled from the spec: the restart loop of the batch-execution
    substrate, which runs the declared jobs and is not part of the
    repository.  Section 4.2: "bounded automatic restart on non-zero exit;
    beyond that the stage is terminal-failed"; section 8: "attempted no
    more than retryLimit + 1 times in total".  [body k] is the exit status
    of attempt [k] (counted from 0); the result carries the number of
    attempts made. *)
Fixpoint attempt (body : nat -> Z) (retries : nat) (k : nat)
    : JobStatus * nat :=
  if body k =? 0 then (Complete, S k)
  else match retries with
       | O => (TerminalFailed, S k)
       | S r => attempt body r (S k)
       end.

(** [backoffLimit] of the declared job; the substrate's default is 6. *)
Definition retryLimit (j : K8s.Job) : nat :=
  Z.to_nat (default 6 (K8s.job_backoffLimit j)).

Definition runJob (j : K8s.Job) (body : nat -> Z) : JobStatus * nat :=
  attempt body (retryLimit j) 0.

End Substrate.

(** ** The gate as the specification words it *)

(** Section 4.1, rules 1 to 4 in order: not enabled gives false; no source
    version gives false; source version and skip flag gives false; otherwise
    true. *)
Definition gate_spec (c : SystemConfig) : bool :=
  if negb (JS.truthy_bool (migration_field enabled c)) then false
  else if negb (JS.truthy_string (migration_field fromVersion c)) then false
  else if JS.truthy_bool (migration_field skipPluginMigration c) then false
  else true.

(** [s] with [lines] appended to its console. *)
Definition logged (s : Construct) (lines : list string) : Construct :=
  {| children := children s; dependencies := dependencies s;
     console := console s ++ lines; clockReads := clockReads s |}.

(** ** Sample inputs *)

Module Sample.

Definition migrationConfig : MigrationConfig :=
  {| enabled := Some true; autoDetect := Some true;
     fromVersion := Some "1.0.0"; backupEnabled := Some false;
     workers := Some {| extract := Some 20; install := Some 2 |};
     skipPluginMigration := Some false;
     marketplaceUrl := Some "https://marketplace.dify.ai" |}.

Definition systemConfig (m : option MigrationConfig) : SystemConfig :=
  {| isChinaRegion := Some false;
     dify := {| version := Some "1.4.2"; migration := m;
                dbMigration := Some {| dbMigrationEnabled := Some true |} |} |}.

Definition props (m : option MigrationConfig) (v : string)
    : DifyMigrationProps :=
  {| config := systemConfig m; cluster := "eks"; namespace := "dify";
     dbEndpoint := "db.local"; dbPort := "5432"; dbUsername := "postgres";
     dbName := "dify"; dbSecretName := "dify-db-secret";
     imageRegistry := ""; difyVersion := v;
     serviceAccountName := "dify" |}.

Definition dbProps : DatabaseMigrationProps :=
  {| dm_config := systemConfig (Some migrationConfig); dm_cluster := "eks";
     dm_namespace := "dify";
     dm_database := {| endpoint := "db.local"; port := "5432";
                       username := "postgres"; secretName := "dify-db-secret";
                       database_dbName := "dify" |};
     dm_serviceAccountName := "dify"; dm_difyVersion := "1.4.2";
     dm_imageRegistry := "" |}.

Definition clock : Clock :=
  {| Date_now := fun n => 1700000000000 + Z.of_nat n;
     toISOString := fun ms => pretty ms |}.

(** The marker appears in the store [delay] seconds after time 0. *)
Definition env (file : string) (delay : Z) : Run.Env :=
  {| Run.present := fun t p => String.eqb p file && (delay <=? t);
     Run.program := fun _ _ => (0, 1) |}.

(** [migrationConfig] without a source version. *)
Definition noSource : MigrationConfig :=
  {| enabled := Some true; autoDetect := Some true;
     fromVersion := None; backupEnabled := Some false;
     workers := Some {| extract := Some 20; install := Some 2 |};
     skipPluginMigration := Some false;
     marketplaceUrl := Some "https://marketplace.dify.ai" |}.

(** [migrationConfig] with the skip flag set. *)
Definition skipping : MigrationConfig :=
  {| enabled := Some true; autoDetect := Some true;
     fromVersion := Some "1.0.0"; backupEnabled := Some false;
     workers := Some {| extract := Some 20; install := Some 2 |};
     skipPluginMigration := Some true;
     marketplaceUrl := Some "https://marketplace.dify.ai" |}.

(** A request that agrees with [migrationConfig] on [enabled],
    [fromVersion] and [skipPluginMigration] only. *)
Definition otherwise : MigrationConfig :=
  {| enabled := Some true; autoDetect := None;
     fromVersion := Some "1.0.0"; backupEnabled := Some true;
     workers := None;
     skipPluginMigration := Some false;
     marketplaceUrl := Some "https://example.invalid" |}.

End Sample.

(** The construct a run of the constructor leaves behind when the gate
    lets the migration through: six children in creation order and five
    dependency edges; the clock was read once for the status record and once
    for the name of each job. *)
Definition pipeline (props : DifyMigrationProps) (clk : Clock) (ticks : nat)
    (out : list string) : Construct :=
  let child id r := {| km_id := id; km_cluster := cluster props;
                       km_manifest := [r] |} in
  let at_ n := Date_now clk (ticks + n) in
  {| children :=
       [ child "migration-pvc" (K8s.RPersistentVolumeClaim (migrationPvc props));
         child "migration-configmap"
               (K8s.RConfigMap (migrationConfigMap props clk (at_ 0%nat)));
         child "extract-plugins-job" (K8s.RJob (extractPluginsJob props (at_ 1%nat)));
         child "install-plugins-job" (K8s.RJob (installPluginsJob props (at_ 2%nat)));
         child "db-upgrade-job" (K8s.RJob (dbUpgradeJob props (at_ 3%nat)));
         child "data-migration-job" (K8s.RJob (dataMigrationJob props (at_ 4%nat))) ];
     dependencies :=
       [ ("extract-plugins-job", "migration-pvc");
         ("extract-plugins-job", "migration-configmap");
         ("install-plugins-job", "extract-plugins-job");
         ("db-upgrade-job", "install-plugins-job");
         ("data-migration-job", "db-upgrade-job") ];
     console := out;
     clockReads := ticks + 5 |}.

(** The dependency edges whose two ends are both stages. *)
Definition stageEdges (s : Construct) : list (string * string) :=
  let isJob id := existsb (String.eqb id) (jobIds s) in
  filter (fun e => isJob (fst e) && isJob (snd e) = true) (dependencies s).

(** The script of a wait container: announce, poll for [path] every five
    seconds, announce. *)
Definition waitFor (before path after : string) : Sh.Script :=
  [ Sh.Echo [Sh.Lit before] None;
    Sh.WhileNotFile path [Sh.Sleep 5];
    Sh.Echo [Sh.Lit after] None ].

(** The state in which the wait loop of [waitFor] is entered at time [t]. *)
Definition polling (t : Z) (before : string) : Run.State :=
  {| Run.now := t; Run.written := []; Run.stdout := [[Sh.Lit before]];
     Run.status := 0; Run.errexit := false; Run.exited := false |}.

(** What the entry procedure of a job does when it waits for [path]. *)
Definition waits_for (env : Run.Env) (t0 : Z) (j : K8s.Job) (path : string)
    : Prop :=
  (∃ c before after,
     K8s.job_initContainers j = [c] ∧
     K8s.c_args c = waitFor before path after) ∧
  (∀ fuel t,
     Run.entry env fuel t0 (K8s.job_initContainers j) = Run.BodyStarts t →
     ∃ k : nat, t = t0 + 5 * Z.of_nat k ∧
                Run.present env t path = true ∧
                ∀ i : nat, (i < k)%nat →
                  Run.present env (t0 + 5 * Z.of_nat i) path = false) ∧
  (∀ fuel st,
     Run.entry env fuel t0 (K8s.job_initContainers j) ≠ Run.InitFails st) ∧
  ((∀ i : nat, Run.present env (t0 + 5 * Z.of_nat i) path = false) →
   ∀ fuel, Run.entry env fuel t0 (K8s.job_initContainers j) = Run.Waiting) ∧
  (∀ k : nat,
     Run.present env (t0 + 5 * Z.of_nat k) path = true →
     (∀ i : nat, (i < k)%nat →
        Run.present env (t0 + 5 * Z.of_nat i) path = false) →
     ∀ fuel, (k + 2 ≤ fuel)%nat →
       Run.entry env fuel t0 (K8s.job_initContainers j)
       = Run.BodyStarts (t0 + 5 * Z.of_nat k)).

(** ** Values spliced into shell text *)

(** The scripts of the containers are template literals: values of the
    props are spliced into the text handed to [/bin/sh -c].  The syntax
    trees of the jobs are what the shell reads when every value spliced
    between double quotes is [quotable] and every string spliced outside
    quotes is a [bareWord]; with other values the text is another script,
    of which the trees say nothing.  (The numbers of workers are spliced
    outside quotes as well; a number prints as digits, letters and the
    signs of [plain], so it always is one word.) *)
Module Splice.

(** The characters the shell interprets between double quotes: the double
    quote itself (34), the dollar sign (36), the backslash (92) and the
    backquote (96). *)
Definition special (c : ascii) : bool :=
  existsb (Nat.eqb (nat_of_ascii c)) [34; 36; 92; 96]%nat.

(** Text that, written between double quotes, is read as itself. *)
Definition quotable (s : string) : bool :=
  forallb (fun c => negb (special c)) (list_ascii_of_string s).

(** Letters, digits and the punctuation of host names, paths and numbers:
    characters that neither split a word nor start an expansion, a comment
    or a pattern. *)
Definition plain (c : ascii) : bool :=
  let n := nat_of_ascii c in
  ((48 <=? n) && (n <=? 57) || (65 <=? n) && (n <=? 90)
   || (97 <=? n) && (n <=? 122))%nat
  || existsb (Ascii.eqb c) (list_ascii_of_string "-_./:@%+,").

(** Text that, written outside quotes, is read as one word equal to
    itself: not empty and made of plain characters. *)
Definition bareWord (s : string) : bool :=
  match s with
  | EmptyString => false
  | String _ _ => forallb plain (list_ascii_of_string s)
  end.

End Splice.

(** The values a stage body splices between double quotes: the four
    database props in every body, the marketplace URL in the install
    body. *)
Definition quotedSplices (props : DifyMigrationProps) : list string :=
  [ dbUsername props; dbEndpoint props; dbPort props; dbName props;
    JS.or_string (migration_field marketplaceUrl (config props))
                 "https://marketplace.dify.ai" ].

(** Props under which the stage bodies are the scripts of [chain]. *)
Definition shellSafe (props : DifyMigrationProps) : bool :=
  forallb Splice.quotable (quotedSplices props).

(** The values the readiness probe splices outside quotes. *)
Definition bareSplices (db : Database) : list string :=
  [endpoint db; port db; username db].

(** A database under which the loop condition of [wait-for-db] is the
    argument vector of [migrationJob]. *)
Definition probeSafe (db : Database) : bool :=
  forallb Splice.bareWord (bareSplices db).



(** ** Well-formedness of a declared job *)

(** Every volume mount of every container names a volume of the job. *)
Definition mountsResolved (j : K8s.Job) : bool :=
  forallb
    (fun c =>
       forallb
         (fun m => existsb (fun v => String.eqb (K8s.vol_name v) (K8s.vm_name m))
                           (K8s.job_volumes j))
         (K8s.c_volumeMounts c))
    (K8s.job_initContainers j ++ K8s.job_containers j).

(** The mount paths at which a container sees the volume called [vol]. *)
Definition mountedAt (vol : string) (c : K8s.Container) : list string :=
  K8s.vm_mountPath <$>
    filter (fun m => K8s.vm_name m = vol) (K8s.c_volumeMounts c).

(** The names of the secrets a job reads, through volumes or environment
    variables. *)
Definition secretsRead (j : K8s.Job) : list string :=
  omap (fun v => match K8s.vol_source v with
                 | K8s.SecretSource n => Some n
                 | _ => None
                 end) (K8s.job_volumes j)
  ++ omap (fun e => match K8s.env_source e with
                    | K8s.EnvSecretKeyRef n _ => Some n
                    | _ => None
                    end)
          (flat_map K8s.c_env (K8s.job_initContainers j ++ K8s.job_containers j)).

(** The construct ids of the children, in creation order. *)
Definition childIds (s : Construct) : list string := km_id <$> children s.

(** ** The wait for the database of the stand-alone job *)

(** A script state without [set -e] that has not left the script. *)
Definition calm (s : Run.State) : Prop :=
  Run.errexit s = false ∧ Run.exited s = false.

(** The condition and the body of
    [until argv; do echo "Waiting for database..."; sleep 5; done]
    as [Run.exec] runs them with fuel [S f]. *)
Definition probing (env : Run.Env) (argv : list string) (s0 : Run.State)
    : bool * Run.State :=
  let '(st, d) := Run.program env argv (Run.now s0) in
  (negb (st =? 0),
   {| Run.now := Run.now s0 + d; Run.written := Run.written s0;
      Run.stdout := Run.stdout s0; Run.status := Run.status s0;
      Run.errexit := Run.errexit s0; Run.exited := false |}).

Definition pause (env : Run.Env) (f : nat) : Run.State -> option Run.State :=
  Run.sequence (Run.exec env f)
    [Sh.Echo [Sh.Lit "Waiting for database..."] None; Sh.Sleep 5].

(** The readiness probe of the stand-alone job, as the shell starts it when
    the endpoint, the port and the user name are each one plain word
    ([probeSafe]). *)
Definition pg_isready (dprops : DatabaseMigrationProps) : list string :=
  let db := dm_database dprops in
  ["pg_isready"; "-h"; endpoint db; "-p"; port db; "-U"; username db].

(** [props] with another [imageRegistry]. *)
Definition withImageRegistry (registry : string) (p : DatabaseMigrationProps)
    : DatabaseMigrationProps :=
  {| dm_config := dm_config p; dm_cluster := dm_cluster p;
     dm_namespace := dm_namespace p; dm_database := dm_database p;
     dm_serviceAccountName := dm_serviceAccountName p;
     dm_difyVersion := dm_difyVersion p; dm_imageRegistry := registry |}.

(** ** [S3Stack]: the storage bucket *)

Record S3Config := {
  removeWhenDestroyed : option bool;
  accessKey : option string;
  secretKey : option string;
  useAccessKeyAuth : option bool;
}.

Inductive RemovalPolicy := DESTROY | RETAIN.

(** The props handed to [new s3.Bucket]. *)
Record BucketProps := {
  bucketName : string;
  removalPolicy : RemovalPolicy;
  autoDeleteObjects : bool;
  encryption : string;
  enforceSSL : bool;
  versioned : bool;
  blockPublicAccess : string;
}.

(** Attributes of the bucket construct.  They are deploy-time tokens, not
    the name written in the props: what a template literal prints for one
    is up to the library, and is a parameter of the model. *)
Inductive BucketAttr :=
| BucketNameAttr                       (* this.bucket.bucketName *)
| ArnForObjects (keyPattern : string). (* this.bucket.arnForObjects(p) *)

Record PolicyStatement := {
  actions : list string;
  policyResources : list BucketAttr;
  principals : list string;
}.

Record CfnOutput := {
  output_id : string;
  output_value : BucketAttr;
  output_description : string;
  output_exportName : string;
}.

(** What the constructor of [S3Stack] does: the bucket it asks for, the
    statement it passes to [addToResourcePolicy] (the statements the
    library adds by itself for [enforceSSL] and [autoDeleteObjects] are
    not part of it), the output and the line logged. *)
Record S3StackResources := {
  bucket : BucketProps;
  addToResourcePolicy : list PolicyStatement;
  outputs : list CfnOutput;
  s3_console : list string;
}.

(** The constructor of [S3Stack] for the [s3] block of the configuration,
    in the account and region of the stack; [print] is the text a template
    literal gives for an attribute of the bucket. *)
Definition S3Stack (s3 : S3Config) (account region : string)
    (print : BucketAttr -> string) : S3StackResources :=
  {| bucket :=
       {| bucketName := "dify-" +:+ account +:+ "-" +:+ region;
          removalPolicy :=
            if JS.truthy_bool (removeWhenDestroyed s3) then DESTROY else RETAIN;
          autoDeleteObjects :=
            match removeWhenDestroyed s3 with
            | Some true => true
            | _ => false
            end;
          encryption := "S3_MANAGED";
          enforceSSL := true;
          versioned := true;
          blockPublicAccess := "BLOCK_ALL" |};
     addToResourcePolicy :=
       [ {| actions := ["s3:GetObject"; "s3:PutObject"; "s3:DeleteObject"];
            policyResources := [ArnForObjects "*"];
            principals := ["AccountRootPrincipal"] |} ];
     outputs :=
       [ {| output_id := "BucketName"; output_value := BucketNameAttr;
            output_description := "S3 Bucket Name";
            output_exportName := "S3BucketName" |} ];
     s3_console :=
       [ "S3配置: 存储桶=" +:+ print BucketNameAttr +:+ ", 删除策略="
         +:+ (if JS.truthy_bool (removeWhenDestroyed s3)
              then "DESTROY" else "RETAIN") ] |}.

(** ** The caller of [DatabaseMigrationConstruct] in [DifyHelmConstruct] *)

(** The part of the [postgresSQL] block the caller reads. *)
Record PostgresSQLConfig := {
  dbCredentialUsername : option string;
  dbCredentialPassword : option string;
  postgres_dbName : option string;
}.

(** The part of [DifyHelmConstructProps] the caller reads; [helm_postgresSQL]
    is [config.postgresSQL]. *)
Record DifyHelmConstructProps := {
  helm_config : SystemConfig;
  helm_postgresSQL : PostgresSQLConfig;
  helm_cluster : string;
  helm_dbEndpoint : string;
  helm_dbPort : string;
}.

Record Secret := {
  secret_name : string;
  secret_namespace : string;
  secret_type : string;
  stringData : gmap string string;
}.

(** A child of the helm construct: a manifest that declares a secret or a
    job, or a nested construct. *)
Inductive HelmChild :=
| SecretManifest (id cl : string) (secret : Secret)
| JobManifest (id cl : string) (job : K8s.Job)
| Nested (id : string) (c : Construct).

Definition helmChildId (c : HelmChild) : string :=
  match c with
  | SecretManifest id _ _ => id
  | JobManifest id _ _ => id
  | Nested id _ => id
  end.

(** The helm construct while its constructor runs; the console and the
    clock are the ones the nested constructors write to and read. *)
Record HelmScope := {
  helm_children : list HelmChild;
  helm_dependencies : list (string * string);
  helm_console : list string;
  helm_clockReads : nat;
}.

Definition helm_has_child (id : string) (s : HelmScope) : bool :=
  existsb (fun c => String.eqb (helmChildId c) id) (helm_children s).

Definition helm_log (line : string) (s : HelmScope) : HelmScope :=
  {| helm_children := helm_children s;
     helm_dependencies := helm_dependencies s;
     helm_console := helm_console s ++ [line];
     helm_clockReads := helm_clockReads s |}.

Definition helm_addChild (c : HelmChild) (s : HelmScope) : Result HelmScope :=
  if helm_has_child (helmChildId c) s then Throw (DuplicateChild (helmChildId c))
  else Ok {| helm_children := helm_children s ++ [c];
             helm_dependencies := helm_dependencies s;
             helm_console := helm_console s;
             helm_clockReads := helm_clockReads s |}.

Definition helm_addDependency (dependent dependency : string) (s : HelmScope)
    : HelmScope :=
  {| helm_children := helm_children s;
     helm_dependencies := helm_dependencies s ++ [(dependent, dependency)];
     helm_console := helm_console s;
     helm_clockReads := helm_clockReads s |}.

Section DifyHelmConstruct.

Variable props : DifyHelmConstructProps.
Variable clk : Clock.

(** The props handed to [DatabaseMigrationConstruct]. *)
Definition dbMigrationProps (namespace dbSecretName imageRegistry : string)
    : DatabaseMigrationProps :=
  {| dm_config := helm_config props;
     dm_cluster := helm_cluster props;
     dm_namespace := namespace;
     dm_database :=
       {| endpoint := helm_dbEndpoint props;
          port := helm_dbPort props;
          username := JS.or_string (dbCredentialUsername (helm_postgresSQL props))
                                   "postgres";
          secretName := dbSecretName;
          database_dbName := JS.or_string (postgres_dbName (helm_postgresSQL props))
                                          "dify" |};
     dm_serviceAccountName := "dify";
     dm_difyVersion := JS.or_string (version (dify (helm_config props))) "1.1.0";
     dm_imageRegistry := imageRegistry |}.

Definition createDatabaseMigration (namespace dbPassword ns : string)
    (s : HelmScope) : Result HelmScope :=
  let s := helm_log "🔄 配置数据库自动迁移..." s in
  let dbSecretName := "dify-db-credentials" in
  match helm_addChild
          (SecretManifest "DbSecret" (helm_cluster props)
             {| secret_name := dbSecretName;
                secret_namespace := namespace;
                secret_type := "Opaque";
                stringData :=
                  <["password" := dbPassword]>
                  (<["username" :=
                       JS.or_string (dbCredentialUsername (helm_postgresSQL props))
                                    "postgres"]> ∅) |}) s with
  | Throw e => Throw e
  | Ok s =>
      let s := helm_addDependency "DbSecret" ns s in
      let imageRegistry :=
        if JS.truthy_bool (isChinaRegion (helm_config props))
        then "048912060910.dkr.ecr.cn-northwest-1.amazonaws.com.cn/dockerhub/"
        else "" in
      if helm_has_child "DbMigration" s then Throw (DuplicateChild "DbMigration")
      else
        match DatabaseMigrationConstruct
                (dbMigrationProps namespace dbSecretName imageRegistry) clk
                (helm_clockReads s) (helm_console s) with
        | Throw e => Throw e
        | Ok c =>
            let s :=
              {| helm_children := helm_children s ++ [Nested "DbMigration" c];
                 helm_dependencies := helm_dependencies s;
                 helm_console := console c;
                 helm_clockReads := clockReads c |} in
            let s := helm_addDependency "DbMigration" "DbSecret" s in
            Ok (helm_log "✅ 数据库迁移配置完成" s)
        end
  end.

(** The step of the constructor that creates the database migration when it
    is enabled. *)
Definition databaseMigrationStep (namespace dbPassword ns : string)
    (s : HelmScope) : Result HelmScope :=
  if JS.truthy_bool (dbMigration (dify (helm_config props)) ≫= dbMigrationEnabled)
  then createDatabaseMigration namespace dbPassword ns s
  else Ok s.

End DifyHelmConstruct.

(** The jobs declared under a helm construct, by itself or through its
    nested constructs. *)
Definition helmJobs (s : HelmScope) : list K8s.Job :=
  flat_map (fun c => match c with
                     | Nested _ k => jobs k
                     | JobManifest _ _ j => [j]
                     | SecretManifest _ _ _ => []
                     end) (helm_children s).

Definition helmSecrets (s : HelmScope) : list Secret :=
  omap (fun c => match c with
                 | SecretManifest _ _ x => Some x
                 | _ => None
                 end) (helm_children s).

(** ** The later [DifyHelmConstruct] ([dify-helm.ts]), which declares the
    migration job itself *)

Section DifyHelmConstructInline.

Variable props : DifyHelmConstructProps.
Variable clk : Clock.

(** The job declared in line.  As in [migrationJob] the loop condition of
    the init container splices the endpoint, the port and the user name
    outside any quotes, and the argument vector is what the shell makes of
    the line when each of them is a [Splice.bareWord]. *)
Definition inlineMigrationJob
    (namespace dbSecretName jobName imageRegistry : string) : K8s.Job :=
  {| K8s.job_name := jobName;
     K8s.job_namespace := namespace;
     K8s.job_labels := [("app", "dify"); ("component", "db-migration")];
     K8s.job_annotations :=
       [ ("helm.sh/hook", "pre-install,pre-upgrade");
         ("helm.sh/hook-weight", "-10");
         ("helm.sh/hook-delete-policy", "before-hook-creation,hook-succeeded") ];
     K8s.job_serviceAccountName := "dify";
     K8s.job_restartPolicy := "OnFailure";
     K8s.job_initContainers :=
       [ {| K8s.c_name := "wait-for-db";
            K8s.c_image := "postgres:16-alpine";
            K8s.c_command := ["/bin/sh"; "-c"];
            K8s.c_args :=
              [ Sh.UntilRun
                  ["pg_isready"; "-h"; helm_dbEndpoint props;
                   "-p"; helm_dbPort props; "-U";
                   JS.or_string (dbCredentialUsername (helm_postgresSQL props))
                                "postgres"]
                  [ Sh.Echo [Sh.Lit "Waiting for database..."] None;
                    Sh.Sleep 5 ];
                Sh.Echo [Sh.Lit "Database is ready!"] None ];
            K8s.c_volumeMounts := [];
            K8s.c_env :=
              [ {| K8s.env_name := "PGPASSWORD";
                   K8s.env_source := K8s.EnvSecretKeyRef dbSecretName "password" |} ];
            K8s.c_resources := None |} ];
     K8s.job_containers :=
       [ {| K8s.c_name := "migration";
            K8s.c_image :=
              imageRegistry +:+ "langgenius/dify-api:"
              +:+ JS.or_string (version (dify (helm_config props))) "1.1.0";
            K8s.c_command := ["/bin/bash"; "-c"];
            K8s.c_args :=
              [ Sh.SetErrexit;
                Sh.Echo [Sh.Lit "Starting database migration..."] None;
                Sh.Cd "/app/api";
                Sh.Source ".venv/bin/activate";
                Sh.Run ["flask"; "db"; "upgrade"];
                Sh.Echo [Sh.Lit "Database migration completed!"] None ];
            K8s.c_volumeMounts := [];
            K8s.c_env :=
              [ {| K8s.env_name := "DB_USERNAME";
                   K8s.env_source :=
                     K8s.EnvValue
                       (JS.or_string (dbCredentialUsername (helm_postgresSQL props))
                                     "postgres") |};
                {| K8s.env_name := "DB_HOST";
                   K8s.env_source := K8s.EnvValue (helm_dbEndpoint props) |};
                {| K8s.env_name := "DB_PORT";
                   K8s.env_source := K8s.EnvValue (helm_dbPort props) |};
                {| K8s.env_name := "DB_DATABASE";
                   K8s.env_source :=
                     K8s.EnvValue
                       (JS.or_string (postgres_dbName (helm_postgresSQL props))
                                     "dify") |};
                {| K8s.env_name := "DB_PASSWORD";
                   K8s.env_source := K8s.EnvSecretKeyRef dbSecretName "password" |};
                {| K8s.env_name := "MIGRATION_ENABLED";
                   K8s.env_source := K8s.EnvValue "false" |};
                {| K8s.env_name := "PYTHONUNBUFFERED";
                   K8s.env_source := K8s.EnvValue "1" |} ];
            K8s.c_resources :=
              Some ([("cpu", "1"); ("memory", "2Gi")],
                    [("cpu", "500m"); ("memory", "1Gi")]) |} ];
     K8s.job_volumes := [];
     K8s.job_backoffLimit := Some 3;
     K8s.job_activeDeadlineSeconds := Some 600;
     K8s.job_ttlSecondsAfterFinished := Some 86400 |}.

Definition createDatabaseMigrationInline (namespace dbPassword ns : string)
    (s : HelmScope) : Result HelmScope :=
  let s := helm_log "🔄 配置数据库自动迁移..." s in
  let dbSecretName := "dify-db-credentials" in
  match helm_addChild
          (SecretManifest "DbSecret" (helm_cluster props)
             {| secret_name := dbSecretName;
                secret_namespace := namespace;
                secret_type := "Opaque";
                stringData :=
                  <["password" := dbPassword]>
                  (<["username" :=
                       JS.or_string (dbCredentialUsername (helm_postgresSQL props))
                                    "postgres"]> ∅) |}) s with
  | Throw e => Throw e
  | Ok s =>
      let s := helm_addDependency "DbSecret" ns s in
      let imageRegistry :=
        if JS.truthy_bool (isChinaRegion (helm_config props))
        then "048912060910.dkr.ecr.cn-northwest-1.amazonaws.com.cn/dockerhub/"
        else "" in
      let jobName :=
        "dify-db-migration-" +:+ pretty (Date_now clk (helm_clockReads s)) in
      let s :=
        {| helm_children := helm_children s;
           helm_dependencies := helm_dependencies s;
           helm_console := helm_console s;
           helm_clockReads := S (helm_clockReads s) |} in
      match helm_addChild
              (JobManifest "DbMigrationJob" (helm_cluster props)
                 (inlineMigrationJob namespace dbSecretName jobName imageRegistry))
              s with
      | Throw e => Throw e
      | Ok s =>
          let s := helm_addDependency "DbMigrationJob" "DbSecret" s in
          Ok (helm_log "✅ 数据库迁移配置完成" s)
      end
  end.

Definition databaseMigrationStepInline (namespace dbPassword ns : string)
    (s : HelmScope) : Result HelmScope :=
  if JS.truthy_bool (dbMigration (dify (helm_config props)) ≫= dbMigrationEnabled)
  then createDatabaseMigrationInline namespace dbPassword ns s
  else Ok s.

End DifyHelmConstructInline.

(** The secret keys a job reads through its environment, as pairs of
    secret name and key. *)
Definition secretRefs (j : K8s.Job) : list (string * string) :=
  omap (fun e => match K8s.env_source e with
                 | K8s.EnvSecretKeyRef n k => Some (n, k)
                 | _ => None
                 end)
       (flat_map K8s.c_env (K8s.job_initContainers j ++ K8s.job_containers j)).

(** The literal value a body container of the job gives to the variable
    [name]. *)
Definition envValue (name : string) (j : K8s.Job) : option string :=
  match find (fun e => String.eqb (K8s.env_name e) name)
             (flat_map K8s.c_env (K8s.job_containers j)) with
  | Some {| K8s.env_source := K8s.EnvValue v |} => Some v
  | _ => None
  end.

(** ** [loadConfig] and [mergeDeep]: the configuration the constructs read

    The configuration is the default configuration with the parsed
    [config.json] merged over it.  Parsed JSON and the default object literal
    are values of one type; an object is a finite map from property names to
    values (the order of the properties plays no role in the merge), a
    number is kept as an integer and a string is the sequence of its code
    units. *)

Set Warnings "-register-all".

Module Json.

Inductive Value :=
| Null
| Bool (b : bool)
| Number (n : Z)
| Str (s : string)
| Array (items : list Value)
| Object (props : gmap string Value).

(** [item && typeof item === 'object' && !Array.isArray(item)], as a
    condition. *)
Definition isObject (item : Value) : bool :=
  match item with
  | Object _ => true
  | _ => false
  end.

(** The condition [v] used as a test. *)
Definition truthy (v : option Value) : bool :=
  match v with
  | Some (Bool b) => b
  | Some (Number n) => negb (n =? 0)
  | Some (Str s) => negb (String.eqb s "")
  | Some (Array _) | Some (Object _) => true
  | Some Null | None => false
  end.

(** [v.key] for a [key] that is neither an index, nor [length], nor a
    property of [Object.prototype]; [None] is [undefined].  Only objects
    have such properties. *)
Definition prop (key : string) (v : Value) : option Value :=
  match v with
  | Object m => m !! key
  | _ => None
  end.

(** The properties every object inherits from [Object.prototype]. *)
Definition inherited : list string :=
  [ "constructor"; "__defineGetter__"; "__defineSetter__"; "hasOwnProperty";
    "__lookupGetter__"; "__lookupSetter__"; "isPrototypeOf";
    "propertyIsEnumerable"; "toString"; "valueOf"; "__proto__";
    "toLocaleString" ].

Definition chars (s : string) : list Value :=
  (fun c => Str (String c EmptyString)) <$> list_ascii_of_string s.

Definition indexed (l : list Value) : gmap string Value :=
  list_to_map (imap (fun i x => (pretty i, x)) l).

(** [Object.assign({}, v)]: the own enumerable properties of [v].  [None]:
    [v] has an own property called [__proto__], whose copy would replace the
    prototype of the result; such values are outside this model. *)
Definition spread (v : Value) : option (gmap string Value) :=
  match v with
  | Object m => if bool_decide (is_Some (m !! "__proto__")) then None else Some m
  | Array l => Some (indexed l)
  | Str s => Some (indexed (chars s))
  | Null | Bool _ | Number _ => Some ∅
  end.

(** The value the callback of [forEach] gives to [output[key]] for the
    property [key] of the source, whose value is [sv]; [rec] is [mergeDeep].
    [None]: the property is called [__proto__] (an assignment to it replaces
    the prototype of [output]), or the nested merge is outside the model.
    A [key] that [target] only inherits from [Object.prototype] is [in]
    target all the same, and [target[key]] is then a function: no object,
    and without enumerable properties, so that the nested merge returns an
    empty object. *)
Definition assigned (rec : Value -> Value -> option Value)
    (tm : gmap string Value) (key : string) (sv : Value) : option Value :=
  if String.eqb key "__proto__" then None
  else if isObject sv then
    match tm !! key with
    | Some tv => rec tv sv
    | None => if bool_decide (key ∈ inherited) then Some (Object ∅) else Some sv
    end
  else Some sv.

(** One turn of [Object.keys(source).forEach]. *)
Definition step (rec : Value -> Value -> option Value)
    (tm : gmap string Value) (key : string) (sv : Value)
    (output : option (gmap string Value)) : option (gmap string Value) :=
  match output with
  | None => None
  | Some out =>
      match assigned rec tm key sv with
      | Some v => Some (<[key := v]> out)
      | None => None
      end
  end.

(** [mergeDeep(target, source)]; [None] as in [spread] and [assigned]. *)
Fixpoint mergeDeep (target source : Value) {struct source} : option Value :=
  match spread target with
  | None => None
  | Some output =>
      match target, source with
      | Object tm, Object sm =>
          Object <$> map_fold (step mergeDeep tm) (Some output) sm
      | _, _ => Some (Object output)
      end
  end.

(** [v.k1.k2...] along a path of property names. *)
Fixpoint get (path : list string) (v : Value) : option Value :=
  match path with
  | [] => Some v
  | key :: rest =>
      match prop key v with
      | Some v' => get rest v'
      | None => None
      end
  end.

(** No object inside the value has a property called [__proto__]. *)
Fixpoint protoFree (v : Value) : bool :=
  match v with
  | Object m =>
      negb (bool_decide (is_Some (m !! "__proto__")))
      && map_fold (fun _ x ok => protoFree x && ok) true m
  | Array l => forallb protoFree l
  | _ => true
  end.

Fixpoint size (v : Value) : nat :=
  match v with
  | Object m => S (map_fold (fun _ x n => (size x + n)%nat) 0%nat m)
  | Array l => S (foldr (fun x n => (size x + n)%nat) 0%nat l)
  | _ => 1%nat
  end.

(** An object literal. *)
Definition obj (l : list (string * Value)) : Value := Object (list_to_map l).

(** The default configuration. *)
Definition defaultConfig : Value :=
  obj [
    ("isChinaRegion", Bool false);
    ("deployLangfuse", Bool false);
    ("dify", obj [
      ("version", Str "1.4.2");
      ("pluginDaemon", obj [
        ("enabled", Bool true);
        ("storageSize", Str "20Gi") ]);
      ("migration", obj [
        ("enabled", Bool true);
        ("autoDetect", Bool true);
        ("backupEnabled", Bool false);
        ("workers", obj [
          ("extract", Number 20);
          ("install", Number 2) ]);
        ("skipPluginMigration", Bool false);
        ("marketplaceUrl", Str "https://marketplace.dify.ai") ]) ]);
    ("network", obj [
      ("useExistingVpc", Bool false);
      ("vpcCidr", Str "10.0.0.0/16");
      ("maxAzs", Number 2) ]);
    ("domain", obj [
      ("useCloudfront", Bool false);
      ("cloudfront", obj [
        ("enabled", Bool false);
        ("priceClass", Str "PriceClass_200");
        ("waf", obj [
          ("enabled", Bool false);
          ("rateLimit", Number 2000);
          ("geoRestriction", obj [
            ("restrictionType", Str "blacklist");
            ("locations", Array []) ]) ]);
        ("cachePolicy", obj [
          ("defaultTTL", Number 300);
          ("maxTTL", Number 86400);
          ("minTTL", Number 0) ]);
        ("logging", obj [
          ("enabled", Bool true);
          ("prefix", Str "cloudfront/") ]);
        ("originShield", obj [
          ("enabled", Bool false) ]) ]) ]);
    ("cluster", obj [
      ("useExistingCluster", Bool false);
      ("clusterName", Str "dify-eks");
      ("version", Str "1.31");
      ("vpcSubnetIds", Array []);
      ("managedNodeGroups", obj [
        ("app", obj [
          ("desiredSize", Number 3);
          ("minSize", Number 1);
          ("maxSize", Number 6);
          ("instanceType", Str "c6g.large");
          ("diskSize", Number 100);
          ("workerNodeSubnetIds", Array []) ]) ]);
      ("eksClusterName", Str "dify-eks") ]);
    ("s3", obj [
      ("removeWhenDestroyed", Bool false);
      ("useAccessKeyAuth", Bool false) ]);
    ("postgresSQL", obj [
      ("postgresFullVersion", Str "16.4");
      ("postgresMajorVersion", Str "16");
      ("instanceType", Str "db.m6g.large");
      ("dbName", Str "dify");
      ("dbCredentialUsername", Str "postgres");
      ("dbCredentialPassword", Str "");
      ("backupRetention", Number 0);
      ("storageSize", Number 512);
      ("removeWhenDestroyed", Bool false);
      ("subnetIds", Array []);
      ("multiAz", obj [
        ("enabled", Bool false);
        ("subnetGroupName", Str "") ]) ]);
    ("redis", obj [
      ("engineVersion", Str "7.0");
      ("nodeType", Str "cache.m6g.large");
      ("readReplicas", Number 1);
      ("subnetIds", Array []);
      ("multiAZ", obj [
        ("enabled", Bool false);
        ("subnetGroupName", Str "") ]) ]);
    ("openSearch", obj [
      ("enabled", Bool true);
      ("masterUserName", Str "admin");
      ("masterUserPassword", Str "");
      ("multiAz", obj [
        ("enabled", Bool false);
        ("azCount", Number 2) ]);
      ("subnetIds", Array []);
      ("capacity", obj [
        ("dataNodes", Number 2);
        ("dataNodeInstanceType", Str "r6g.large.search") ]);
      ("dataNodeSize", Number 100) ]) ].

(** What reading and parsing the configuration file gives: the file does
    not exist, reading or [JSON.parse] throws, or a value is parsed. *)
Inductive ConfigFile :=
| Missing
| Unreadable (error : string)
| Parsed (v : Value).

Inductive LoadError :=
| ConfigNotFound (path : string)
| ConfigMalformed (path error : string)
| NullConfig.                 (* TypeError: property of null *)

Inductive Loaded :=
| Config (v : Value)
| Fails (e : LoadError)
| Unmodelled.                 (* the merge met a [__proto__] property *)

(** [o?.key]. *)
Definition optional (key : string) (o : option Value) : option Value :=
  match o with
  | None | Some Null => None
  | Some v => prop key v
  end.

(** [loadConfig(configPath)]: [defaultPath] is
    [path.join(process.cwd(), 'config.json')] and [file] is the state of the
    file system; the result comes with the lines logged. *)
Definition loadConfig (configPath : option string) (defaultPath : string)
    (file : string -> ConfigFile) : Loaded * list string :=
  let configFilePath := JS.or_string configPath defaultPath in
  match file configFilePath with
  | Missing => (Fails (ConfigNotFound configFilePath), [])
  | Unreadable error => (Fails (ConfigMalformed configFilePath error), [])
  | Parsed customConfig =>
      let out := ["📝 配置验证:"] in
      match customConfig with
      | Null => (Fails NullConfig, out)
      | _ =>
          let out :=
            if negb (truthy (optional "dbCredentialPassword"
                               (prop "postgresSQL" customConfig)))
            then out ++ ["  • PostgreSQL密码未设置，将通过AWS Secrets Manager自动生成"]
            else out in
          let out :=
            if truthy (optional "enabled" (prop "openSearch" customConfig))
               && negb (truthy (optional "masterUserPassword"
                                  (prop "openSearch" customConfig)))
            then out ++ ["  • OpenSearch密码未设置，将通过AWS Secrets Manager自动生成"]
            else out in
          (match mergeDeep defaultConfig customConfig with
           | Some v => Config v
           | None => Unmodelled
           end, out)
      end
  end.

(** The source has an own value at every step of the path where the target
    has one, and that value of the target is an object: the path can be
    merged into the target. *)
Fixpoint fits (path : list string) (target : Value) : bool :=
  match path, target with
  | [], _ => true
  | [_], Object _ => true
  | key :: rest, Object tm =>
      match tm !! key with
      | Some tv => isObject tv && fits rest tv
      | None => true
      end
  | _ :: _, _ => false
  end.

(** The source says nothing about the path: at some step it has no property,
    and up to there only objects. *)
Fixpoint untouched (path : list string) (source : Value) : bool :=
  match path, source with
  | key :: rest, Object sm =>
      match sm !! key with
      | Some sv => isObject sv && untouched rest sv
      | None => true
      end
  | _, _ => false
  end.

End Json.

(** Sample inputs for the helm construct. *)
Module SampleHelm.

Definition props : DifyHelmConstructProps :=
  {| helm_config := Sample.systemConfig (Some Sample.migrationConfig);
     helm_postgresSQL := {| dbCredentialUsername := None;
                            dbCredentialPassword := None;
                            postgres_dbName := Some "dify" |};
     helm_cluster := "eks"; helm_dbEndpoint := "db.local";
     helm_dbPort := "5432" |}.

Definition empty : HelmScope :=
  {| helm_children := []; helm_dependencies := [];
     helm_console := []; helm_clockReads := 0 |}.

End SampleHelm.

(** * Properties *)

(** ** The gate *)

Lemma logged_app s l1 l2 : logged (logged s l1) l2 = logged s (l1 ++ l2).
Proof. unfold logged; simpl. by rewrite <- app_assoc. Qed.

Lemma console_log_logged line s : console_log line s = Ok (tt, logged s [line]).
Proof. reflexivity. Qed.

(** The gate returns on every input, its answer is the one of [gate_spec],
    and it leaves the construct as it found it but for the lines logged. *)
Lemma gate_runs props s :
  ∃ lines, shouldRunMigration props s
           = Ok (gate_spec (config props), logged s lines).
Proof.
  unfold shouldRunMigration, gate_spec, migration_field.
  destruct (migration (dify (config props))) as [mc|]; simpl.
  - destruct (enabled mc) as [[]|]; simpl;
      try (eexists; unfold mbind, M_bind; rewrite console_log_logged; reflexivity).
    unfold mbind, M_bind at 1. rewrite console_log_logged.
    destruct (fromVersion mc) as [[|c v]|]; simpl;
      try (unfold mbind, M_bind; rewrite console_log_logged, logged_app;
           eexists; reflexivity).
    unfold mbind, M_bind at 1. rewrite console_log_logged, logged_app.
    destruct (skipPluginMigration mc) as [[]|]; simpl;
      try (eexists; reflexivity).
    unfold mbind, M_bind. rewrite console_log_logged, logged_app.
    eexists; reflexivity.
  - eexists. unfold mbind, M_bind. rewrite console_log_logged. reflexivity.
Qed.

(** ** The constructor *)

Lemma bind_ok {A B} (m : M A) (f : A → M B) s a s' :
  m s = Ok (a, s') → (m ≫= f) s = f a s'.
Proof. intros H. unfold mbind, M_bind. by rewrite H. Qed.

(** When the gate refuses, the constructor returns with a construct that
    has no child and no edge, and the clock unread. *)
Lemma constructor_skips props clk ticks out :
  gate_spec (config props) = false →
  ∃ lines, DifyMigrationConstruct props clk ticks out
           = Ok (fresh ticks (out ++ lines)).
Proof.
  intros Hg. unfold DifyMigrationConstruct, constructorBody.
  destruct (gate_runs props (fresh ticks out)) as [lines Hrun].
  rewrite (bind_ok _ _ _ _ _ Hrun), Hg. simpl.
  exists (lines ++ ["Migration skipped: Either disabled or not required for this version."]).
  unfold fresh. by rewrite <- app_assoc.
Qed.

(** When the gate lets the migration through, the constructor returns
    with the six children and five edges of [pipeline]. *)
Lemma constructor_runs props clk ticks out :
  gate_spec (config props) = true →
  ∃ lines, DifyMigrationConstruct props clk ticks out
           = Ok (pipeline props clk ticks (out ++ lines)).
Proof.
  intros Hg. unfold DifyMigrationConstruct, constructorBody.
  destruct (gate_runs props (fresh ticks out)) as [lines Hrun].
  rewrite (bind_ok _ _ _ _ _ Hrun), Hg. simpl negb. cbv iota.
  exists lines. unfold pipeline.
  replace (ticks + 0)%nat with ticks by lia.
  replace (ticks + 1)%nat with (S ticks) by lia.
  replace (ticks + 2)%nat with (S (S ticks)) by lia.
  replace (ticks + 3)%nat with (S (S (S ticks))) by lia.
  replace (ticks + 4)%nat with (S (S (S (S ticks)))) by lia.
  replace (ticks + 5)%nat with (S (S (S (S (S ticks))))) by lia.
  reflexivity.
Qed.

(** ** Claims about the gate and the stages it lets through *)

(** C1. For every request with [enabled = true], a non-empty [fromVersion]
    and a [skipPluginMigration] that is false (or unset), the gate returns
    true on every construct state, and the constructor returns with exactly
    four jobs, declared in the order extract-plugins, install-plugins,
    db-upgrade, data-migration, where the only edges between stages go from
    each stage to its predecessor. *)
Theorem C1_gate_opens_four_stages_in_order
    (props : DifyMigrationProps) (clk : Clock) (ticks : nat)
    (out : list string) (mc : MigrationConfig) (v : string) :
  migration (dify (config props)) = Some mc →
  enabled mc = Some true →
  fromVersion mc = Some v →
  v ≠ "" →
  JS.truthy_bool (skipPluginMigration mc) = false →
  (∀ s, ∃ lines, shouldRunMigration props s = Ok (true, logged s lines)) ∧
  ∃ w, DifyMigrationConstruct props clk ticks out = Ok w ∧
       length (jobs w) = 4%nat ∧
       jobs w = chain props (Date_now clk (ticks + 1)) (Date_now clk (ticks + 2))
                            (Date_now clk (ticks + 3)) (Date_now clk (ticks + 4)) ∧
       jobIds w = ["extract-plugins-job"; "install-plugins-job";
                   "db-upgrade-job"; "data-migration-job"] ∧
       map step (jobs w) = [Some "extract-plugins"; Some "install-plugins";
                            Some "db-upgrade"; Some "data-migration"] ∧
       stageEdges w = [("install-plugins-job", "extract-plugins-job");
                       ("db-upgrade-job", "install-plugins-job");
                       ("data-migration-job", "db-upgrade-job")].
Proof.
  intros Hm He Hf Hv Hs.
  assert (Hg : gate_spec (config props) = true).
  { unfold gate_spec, migration_field. rewrite Hm; simpl. rewrite He, Hf, Hs.
    destruct v; [done | reflexivity]. }
  split.
  - intros s. destruct (gate_runs props s) as [lines H].
    exists lines. by rewrite H, Hg.
  - destruct (constructor_runs props clk ticks out Hg) as [lines H].
    eexists. split; [exact H |]. repeat split.
Qed.

Lemma C1_witness :
  ∃ w, DifyMigrationConstruct (Sample.props (Some Sample.migrationConfig) "1.4.2")
         Sample.clock 0 [] = Ok w ∧ length (jobs w) = 4%nat.
Proof.
  destruct (C1_gate_opens_four_stages_in_order
              (Sample.props (Some Sample.migrationConfig) "1.4.2")
              Sample.clock 0 [] Sample.migrationConfig "1.0.0"
              eq_refl eq_refl eq_refl ltac:(discriminate) eq_refl)
    as [_ [w [H [Hl _]]]].
  exists w. split; assumption.
Defined.

(** C3. For every request with [enabled = true] and [fromVersion] unset or
    empty, the gate returns false, whatever [autoDetect], the other fields
    and the version being deployed are. *)
Theorem C3_no_source_version_gate_closed
    (props : DifyMigrationProps) (mc : MigrationConfig) (s : Construct) :
  migration (dify (config props)) = Some mc →
  enabled mc = Some true →
  fromVersion mc = None ∨ fromVersion mc = Some "" →
  ∃ lines, shouldRunMigration props s = Ok (false, logged s lines).
Proof.
  intros Hm He Hf.
  destruct (gate_runs props s) as [lines H]. exists lines. rewrite H.
  unfold gate_spec, migration_field. rewrite Hm; simpl. rewrite He; simpl.
  by destruct Hf as [-> | ->].
Qed.

Lemma C3_witness :
  ∃ lines,
    shouldRunMigration (Sample.props (Some Sample.noSource) "1.4.2") (fresh 0 [])
    = Ok (false, logged (fresh 0 []) lines).
Proof.
  apply (C3_no_source_version_gate_closed
           (Sample.props (Some Sample.noSource) "1.4.2") Sample.noSource
           (fresh 0 []) eq_refl eq_refl).
  left. reflexivity.
Defined.

(** C4. For every request with [enabled = true], [fromVersion] set and
    [skipPluginMigration = true], the gate returns false and the constructor
    declares no stage at all: the construct is left without any child. *)
Theorem C4_skip_flag_skips_whole_pipeline
    (props : DifyMigrationProps) (clk : Clock) (ticks : nat)
    (out : list string) (mc : MigrationConfig) (v : string) :
  migration (dify (config props)) = Some mc →
  enabled mc = Some true →
  fromVersion mc = Some v →
  v ≠ "" →
  skipPluginMigration mc = Some true →
  (∀ s, ∃ lines, shouldRunMigration props s = Ok (false, logged s lines)) ∧
  ∃ w, DifyMigrationConstruct props clk ticks out = Ok w ∧
       jobs w = [] ∧ children w = [].
Proof.
  intros Hm He Hf Hv Hs.
  assert (Hg : gate_spec (config props) = false).
  { unfold gate_spec, migration_field. rewrite Hm; simpl. rewrite He, Hf, Hs.
    destruct v; [done | reflexivity]. }
  split.
  - intros s. destruct (gate_runs props s) as [lines H].
    exists lines. by rewrite H, Hg.
  - destruct (constructor_skips props clk ticks out Hg) as [lines H].
    eexists. split; [exact H |]. split; reflexivity.
Qed.

Lemma C4_witness :
  ∃ w, DifyMigrationConstruct (Sample.props (Some Sample.skipping) "1.4.2")
         Sample.clock 0 [] = Ok w ∧ jobs w = [].
Proof.
  destruct (C4_skip_flag_skips_whole_pipeline
              (Sample.props (Some Sample.skipping) "1.4.2")
              Sample.clock 0 [] Sample.skipping "1.0.0"
              eq_refl eq_refl eq_refl ltac:(discriminate) eq_refl)
    as [_ [w [H [Hj _]]]].
  exists w. split; assumption.
Defined.

(** C5. Whenever the gate returns false, the constructor returns with
    nothing declared: no volume claim, no status record, no job, no edge and
    no clock reading; and the gate does return false on every request whose
    [enabled] is false. *)
Theorem C5_closed_gate_creates_nothing
    (props : DifyMigrationProps) (clk : Clock) (ticks : nat)
    (out : list string) :
  (∀ s', shouldRunMigration props (fresh ticks out) = Ok (false, s') →
     ∃ w, DifyMigrationConstruct props clk ticks out = Ok w ∧
          children w = [] ∧ dependencies w = [] ∧
          claims w = [] ∧ configMaps w = [] ∧ jobs w = [] ∧
          clockReads w = ticks) ∧
  (migration_field enabled (config props) = Some false →
     ∀ s, ∃ lines, shouldRunMigration props s = Ok (false, logged s lines)).
Proof.
  split.
  - intros s' Hrun.
    destruct (gate_runs props (fresh ticks out)) as [lines H].
    rewrite H in Hrun. injection Hrun as Hg _.
    destruct (constructor_skips props clk ticks out Hg) as [lines' H'].
    eexists. split; [exact H' |]. repeat split.
  - intros He s. destruct (gate_runs props s) as [lines H].
    exists lines. rewrite H. unfold gate_spec. by rewrite He.
Qed.

Lemma C5_witness :
  ∃ w, DifyMigrationConstruct (Sample.props None "1.4.2") Sample.clock 0 []
       = Ok w ∧ children w = [].
Proof.
  destruct (proj1 (C5_closed_gate_creates_nothing
                     (Sample.props None "1.4.2") Sample.clock 0 []) _ eq_refl)
    as [w [H [Hc _]]].
  exists w. split; assumption.
Defined.

(** C9. The gate is total and pure: on every request and every construct
    state it returns a boolean without throwing, the boolean is a function
    of the configuration alone (the one of [gate_spec], which never looks at
    the version being deployed, well formed or not), and the construct is
    returned unchanged but for the lines written to the console. *)
Theorem C9_gate_total_and_pure (props : DifyMigrationProps) (s : Construct) :
  ∃ lines, shouldRunMigration props s
           = Ok (gate_spec (config props), logged s lines)
           ∧ children (logged s lines) = children s
           ∧ dependencies (logged s lines) = dependencies s
           ∧ clockReads (logged s lines) = clockReads s.
Proof.
  destruct (gate_runs props s) as [lines H].
  exists lines. repeat split. exact H.
Qed.

(** C10. The decision of the gate depends on [enabled], [fromVersion] and
    [skipPluginMigration] only: two requests that agree on these three
    fields get the same boolean, whatever their other fields, the versions
    being deployed and the construct states are; and a request without a
    migration block is refused. *)
Theorem C10_gate_depends_on_three_fields
    (p1 p2 : DifyMigrationProps) (s1 s2 : Construct) :
  migration_field enabled (config p1) = migration_field enabled (config p2) →
  migration_field fromVersion (config p1)
  = migration_field fromVersion (config p2) →
  migration_field skipPluginMigration (config p1)
  = migration_field skipPluginMigration (config p2) →
  ∃ b l1 l2,
    shouldRunMigration p1 s1 = Ok (b, logged s1 l1) ∧
    shouldRunMigration p2 s2 = Ok (b, logged s2 l2) ∧
    (migration (dify (config p1)) = None → b = false).
Proof.
  intros He Hf Hs.
  destruct (gate_runs p1 s1) as [l1 H1].
  destruct (gate_runs p2 s2) as [l2 H2].
  exists (gate_spec (config p1)), l1, l2. split; [exact H1 |]. split.
  - rewrite H2. unfold gate_spec. by rewrite He, Hf, Hs.
  - intros Hm. unfold gate_spec, migration_field. by rewrite Hm.
Qed.

Lemma C10_witness :
  ∃ b l1 l2,
    shouldRunMigration (Sample.props (Some Sample.migrationConfig) "1.4.2")
                       (fresh 0 []) = Ok (b, logged (fresh 0 []) l1) ∧
    shouldRunMigration (Sample.props (Some Sample.otherwise) "not.a.version")
                       (fresh 7 ["earlier"]) = Ok (b, logged (fresh 7 ["earlier"]) l2).
Proof.
  destruct (C10_gate_depends_on_three_fields
              (Sample.props (Some Sample.migrationConfig) "1.4.2")
              (Sample.props (Some Sample.otherwise) "not.a.version")
              (fresh 0 []) (fresh 7 ["earlier"]) eq_refl eq_refl eq_refl)
    as [b [l1 [l2 [H1 [H2 _]]]]].
  exists b, l1, l2. split; assumption.
Defined.

(** ** Retry and deadline of the stages *)

Lemma chain_cases props t1 t2 t3 t4 j :
  j ∈ chain props t1 t2 t3 t4 →
  j = extractPluginsJob props t1 ∨ j = installPluginsJob props t2 ∨
  j = dbUpgradeJob props t3 ∨ j = dataMigrationJob props t4.
Proof.
  unfold chain. rewrite !elem_of_cons, elem_of_nil. tauto.
Qed.

Lemma attempt_always_failing body retries k :
  (∀ i, body i ≠ 0) →
  Substrate.attempt body retries k
  = (Substrate.TerminalFailed, S (k + retries)).
Proof.
  intros Hfail. revert k. induction retries as [|r IH]; intros k; simpl.
  - destruct (Z.eqb_spec (body k) 0) as [E|_]; [by apply Hfail in E |].
    by rewrite Nat.add_0_r.
  - destruct (Z.eqb_spec (body k) 0) as [E|_]; [by apply Hfail in E |].
    rewrite IH. f_equal. lia.
Qed.

Lemma attempt_bounded body retries k :
  (snd (Substrate.attempt body retries k) ≤ S (k + retries))%nat.
Proof.
  revert k. induction retries as [|r IH]; intros k; simpl.
  - destruct (body k =? 0); simpl; lia.
  - destruct (body k =? 0); simpl; [lia |].
    specialize (IH (S k)). lia.
Qed.

(** C6. Each of the four stages declares a retry limit of 3
    ([backoffLimit]), and under the restart loop of the substrate a body
    that exits non-zero at every attempt is attempted 4 times, that is
    [retryLimit + 1] times, and then the stage is terminal-failed; whatever
    the body does, no stage is attempted more than [retryLimit + 1] times. *)
Theorem C6_retry_bound
    (props : DifyMigrationProps) (t1 t2 t3 t4 : Z) (j : K8s.Job) :
  j ∈ chain props t1 t2 t3 t4 →
  K8s.job_backoffLimit j = Some 3 ∧
  Substrate.retryLimit j = 3%nat ∧
  (∀ body, (∀ k, body k ≠ 0) →
           Substrate.runJob j body = (Substrate.TerminalFailed, 4%nat)) ∧
  (∀ body, (snd (Substrate.runJob j body) ≤ Substrate.retryLimit j + 1)%nat).
Proof.
  intros Hj.
  assert (Hb : K8s.job_backoffLimit j = Some 3).
  { destruct (chain_cases _ _ _ _ _ _ Hj) as [-> | [-> | [-> | ->]]];
      reflexivity. }
  assert (Hr : Substrate.retryLimit j = 3%nat).
  { unfold Substrate.retryLimit. by rewrite Hb. }
  split; [exact Hb |]. split; [exact Hr |]. split.
  - intros body Hfail. unfold Substrate.runJob.
    by rewrite Hr, attempt_always_failing.
  - intros body. unfold Substrate.runJob.
    pose proof (attempt_bounded body (Substrate.retryLimit j) 0). lia.
Qed.

Lemma C6_witness :
  Substrate.runJob (dbUpgradeJob (Sample.props (Some Sample.migrationConfig) "1.4.2") 0)
                   (fun _ => 1)
  = (Substrate.TerminalFailed, 4%nat).
Proof.
  apply (proj1 (proj2 (proj2 (C6_retry_bound
           (Sample.props (Some Sample.migrationConfig) "1.4.2") 0 0 0 0 _
           ltac:(unfold chain; do 2 right; left))))).
  intros k. discriminate.
Defined.




(** ** The entry procedure of a stage *)

Section WaitLoop.

Variable env : Run.Env.
Variable path : string.

Lemma loop_S n cond body s :
  Run.loop (S n) cond body s
  = let '(go, s1) := cond s in
    if go then
      match body s1 with
      | Some s2 => if Run.exited s2 then Some s2 else Run.loop n cond body s2
      | None => None
      end
    else Some s1.
Proof. reflexivity. Qed.

Lemma nap_plain f s :
  Run.plain s →
  Run.nap env (S f) s = Some (Run.finish s (Run.now s + 5) [] [] 0)
  ∧ Run.plain (Run.finish s (Run.now s + 5) [] [] 0).
Proof.
  intros (Hw & He & Hx). unfold Run.nap, Run.plain; simpl.
  rewrite He, Hw. simpl. repeat split.
Qed.

Lemma absent_plain s :
  Run.plain s →
  Run.absent env path s = (negb (Run.present env (Run.now s) path), s).
Proof.
  intros (Hw & _). unfold Run.absent, Run.fileExists. by rewrite Hw.
Qed.

(** A loop that ends has ended at a poll that found the marker, and every
    earlier poll, five seconds apart, missed it. *)
Lemma wait_sound f n : ∀ s s',
  Run.plain s →
  Run.loop n (Run.absent env path) (Run.nap env f) s = Some s' →
  ∃ k : nat, (k < n)%nat ∧ Run.now s' = Run.now s + 5 * Z.of_nat k ∧
             Run.present env (Run.now s') path = true ∧
             (∀ i : nat, (i < k)%nat →
                Run.present env (Run.now s + 5 * Z.of_nat i) path = false) ∧
             Run.plain s'.
Proof.
  induction n as [|n IH]; intros s s' Hp Hrun; [discriminate |].
  rewrite loop_S, (absent_plain s Hp) in Hrun.
  destruct (Run.present env (Run.now s) path) eqn:Hnow; simpl in Hrun.
  - injection Hrun as <-. exists 0%nat. repeat split; try apply Hp.
    + lia.
    + simpl. lia.
    + exact Hnow.
    + intros i Hi. lia.
  - destruct f as [|f]; [discriminate |].
    destruct (nap_plain f s Hp) as [Hnap Hp2]. rewrite Hnap in Hrun.
    destruct Hp2 as (Hw2 & He2 & Hx2). rewrite Hx2 in Hrun.
    destruct (IH _ _ (conj Hw2 (conj He2 Hx2)) Hrun)
      as (k & Hk & Ht & Hfound & Hmiss & Hp').
    exists (S k). simpl Run.now in *. repeat split; try apply Hp'.
    + lia.
    + lia.
    + exact Hfound.
    + intros [|i] Hi.
      * by rewrite Z.mul_0_r, Z.add_0_r.
      * replace (Run.now s + 5 * Z.of_nat (S i))
          with (Run.now s + 5 + 5 * Z.of_nat i) by lia.
        apply Hmiss. lia.
Qed.

(** While the marker is missing at every poll the loop does not end. *)
Lemma wait_forever f n : ∀ s,
  Run.plain s →
  (∀ i : nat, (i < n)%nat →
     Run.present env (Run.now s + 5 * Z.of_nat i) path = false) →
  Run.loop n (Run.absent env path) (Run.nap env f) s = None.
Proof.
  induction n as [|n IH]; intros s Hp Hmiss; [reflexivity |].
  rewrite loop_S, (absent_plain s Hp).
  pose proof (Hmiss 0%nat ltac:(lia)) as H0.
  rewrite Z.mul_0_r, Z.add_0_r in H0. rewrite H0; simpl.
  destruct f as [|f]; [reflexivity |].
  destruct (nap_plain f s Hp) as [Hnap Hp2]. rewrite Hnap.
  destruct Hp2 as (Hw2 & He2 & Hx2). rewrite Hx2.
  apply IH; [by repeat split |].
  intros i Hi. simpl Run.now.
  replace (Run.now s + 5 + 5 * Z.of_nat i)
    with (Run.now s + 5 * Z.of_nat (S i)) by lia.
  apply Hmiss. lia.
Qed.

(** The loop ends at the first poll that finds the marker, however late
    that is, given fuel for that many polls. *)
Lemma wait_arrives f (k : nat) : ∀ n s,
  Run.plain s →
  Run.present env (Run.now s + 5 * Z.of_nat k) path = true →
  (∀ i : nat, (i < k)%nat →
     Run.present env (Run.now s + 5 * Z.of_nat i) path = false) →
  (k < n)%nat →
  ∃ s', Run.loop n (Run.absent env path) (Run.nap env (S f)) s = Some s'
        ∧ Run.now s' = Run.now s + 5 * Z.of_nat k ∧ Run.plain s'.
Proof.
  induction k as [|k IH]; intros n s Hp Hfound Hmiss Hn;
    (destruct n as [|n]; [lia |]); rewrite loop_S, (absent_plain s Hp).
  - rewrite Z.mul_0_r, Z.add_0_r in Hfound. rewrite Hfound; simpl.
    exists s. repeat split; try apply Hp. lia.
  - pose proof (Hmiss 0%nat ltac:(lia)) as H0.
    rewrite Z.mul_0_r, Z.add_0_r in H0. rewrite H0; simpl.
    destruct (nap_plain f s Hp) as [Hnap Hp2]. rewrite Hnap.
    destruct Hp2 as (Hw2 & He2 & Hx2). rewrite Hx2.
    destruct (IH n (Run.finish s (Run.now s + 5) [] [] 0)) as (s' & Hrun & Ht & Hp').
    + by repeat split.
    + simpl Run.now.
      replace (Run.now s + 5 + 5 * Z.of_nat k)
        with (Run.now s + 5 * Z.of_nat (S k)) by lia.
      exact Hfound.
    + intros i Hi. simpl Run.now.
      replace (Run.now s + 5 + 5 * Z.of_nat i)
        with (Run.now s + 5 * Z.of_nat (S i)) by lia.
      apply Hmiss. lia.
    + lia.
    + exists s'. repeat split; try apply Hp'; [exact Hrun |].
      rewrite Ht. simpl Run.now. lia.
Qed.

End WaitLoop.

Section Entry.

Variable env : Run.Env.
Variables before path after : string.
Variable c : K8s.Container.
Hypothesis c_waits : K8s.c_args c = waitFor before path after.

Lemma polling_plain t : Run.plain (polling t before).
Proof. repeat split. Qed.

(** The entry procedure of a pod whose only init container is a wait
    container is the wait loop. *)
Lemma entry_is_wait_loop f t :
  Run.entry env (S f) t [c]
  = match Run.loop (S f) (Run.absent env path) (Run.nap env f)
                   (polling t before) with
    | Some s => Run.BodyStarts (Run.now s)
    | None => Run.Waiting
    end.
Proof.
  unfold Run.entry, Run.script. rewrite c_waits. unfold waitFor.
  cbn [Run.sequence Run.exec Run.finish Run.start Run.exited Run.errexit
       Run.now Run.written Run.stdout andb app].
  change (Run.loop (S f) _ _ _)
    with (Run.loop (S f) (Run.absent env path) (Run.nap env f)
                   (polling t before)).
  destruct (Run.loop _ _ _ _) as [s|] eqn:Hrun; [| reflexivity].
  destruct (wait_sound env path f _ _ _ (polling_plain t) Hrun)
    as (_ & _ & _ & _ & _ & (_ & He & Hx)).
  rewrite Hx, He. reflexivity.
Qed.

Lemma entry_sound fuel t t' :
  Run.entry env fuel t [c] = Run.BodyStarts t' →
  ∃ k : nat, t' = t + 5 * Z.of_nat k ∧
             Run.present env t' path = true ∧
             ∀ i : nat, (i < k)%nat →
               Run.present env (t + 5 * Z.of_nat i) path = false.
Proof.
  destruct fuel as [|f].
  - unfold Run.entry, Run.script. rewrite c_waits. discriminate.
  - rewrite entry_is_wait_loop.
    destruct (Run.loop _ _ _ _) as [s|] eqn:Hrun; [| discriminate].
    intros [= <-].
    destruct (wait_sound env path f _ _ _ (polling_plain t) Hrun)
      as (k & _ & Ht & Hfound & Hmiss & _).
    exists k. auto.
Qed.

Lemma entry_never_fails fuel t st :
  Run.entry env fuel t [c] ≠ Run.InitFails st.
Proof.
  destruct fuel as [|f].
  - unfold Run.entry, Run.script. rewrite c_waits. discriminate.
  - rewrite entry_is_wait_loop. by destruct (Run.loop _ _ _ _).
Qed.

Lemma entry_forever fuel t :
  (∀ i : nat, Run.present env (t + 5 * Z.of_nat i) path = false) →
  Run.entry env fuel t [c] = Run.Waiting.
Proof.
  intros Hmiss. destruct fuel as [|f].
  - unfold Run.entry, Run.script. by rewrite c_waits.
  - rewrite entry_is_wait_loop, wait_forever; [done | apply polling_plain |].
    intros i _. apply Hmiss.
Qed.

Lemma entry_arrives fuel t (k : nat) :
  Run.present env (t + 5 * Z.of_nat k) path = true →
  (∀ i : nat, (i < k)%nat →
     Run.present env (t + 5 * Z.of_nat i) path = false) →
  (k + 2 ≤ fuel)%nat →
  Run.entry env fuel t [c] = Run.BodyStarts (t + 5 * Z.of_nat k).
Proof.
  intros Hfound Hmiss Hfuel.
  destruct fuel as [|[|f]]; [lia | lia |].
  rewrite entry_is_wait_loop.
  destruct (wait_arrives env path f k (S (S f)) (polling t before))
    as (s & Hrun & Ht & _);
    [apply polling_plain | exact Hfound | exact Hmiss | lia |].
  by rewrite Hrun, Ht.
Qed.

End Entry.

Lemma wait_container_waits env t0 j c before path after :
  K8s.job_initContainers j = [c] →
  K8s.c_args c = waitFor before path after →
  waits_for env t0 j path.
Proof.
  intros Hi Hc. unfold waits_for. rewrite Hi.
  split; [by exists c, before, after |].
  split; [intros fuel t; by apply (entry_sound env before path after c Hc) |].
  split; [intros fuel st; by apply (entry_never_fails env before path after c Hc) |].
  split; [intros Hmiss fuel; by apply (entry_forever env before path after c Hc) |].
  intros k Hfound Hmiss fuel Hfuel.
  by apply (entry_arrives env before path after c Hc).
Qed.

(** C2. For every stage of ordinal N in 2..4, the previous stage is the one
    that writes marker N-1 (plugins.jsonl, install-complete,
    db-upgrade-complete), and the entry procedure of stage N is a single
    wait container that polls for that marker every 5 seconds: whenever the
    body starts, it starts at a poll that found the marker after polls,
    5 seconds apart, that all missed it; the entry procedure never fails;
    if the marker never shows up it is still waiting after any number of
    steps; and there is no bound on the wait: the job declares no deadline,
    and if the marker first shows up at the k-th poll, the body starts then,
    5k seconds after the entry. *)
Theorem C2_entry_polls_for_previous_marker
    (props : DifyMigrationProps) (t1 t2 t3 t4 : Z) (N : nat) (j : K8s.Job)
    (env : Run.Env) (t0 : Z) :
  (2 ≤ N ≤ 4)%nat →
  chain props t1 t2 t3 t4 !! (N - 1)%nat = Some j →
  (∃ prev, chain props t1 t2 t3 t4 !! (N - 2)%nat = Some prev ∧
           marker (N - 1) ∈ Touches.jobWrites prev) ∧
  K8s.job_activeDeadlineSeconds j = None ∧
  waits_for env t0 j (marker (N - 1)).
Proof.
  intros HN Hj.
  assert (N = 2 ∨ N = 3 ∨ N = 4)%nat as [-> | [-> | ->]] by lia;
    simpl in Hj; injection Hj as <-; (split;
      [ eexists; split; [reflexivity |]; cbn; rewrite !elem_of_cons; auto
      | split; [reflexivity | eapply wait_container_waits; reflexivity] ]).
Qed.

Lemma C2_witness :
  Run.entry (Sample.env (marker 1) 12) 10 0
            (K8s.job_initContainers
               (installPluginsJob (Sample.props (Some Sample.migrationConfig) "1.4.2") 2))
  = Run.BodyStarts 15.
Proof.
  destruct (C2_entry_polls_for_previous_marker
              (Sample.props (Some Sample.migrationConfig) "1.4.2") 1 2 3 4
              2 _ (Sample.env (marker 1) 12) 0
              ltac:(lia) eq_refl)
    as (_ & _ & _ & _ & _ & _ & Harrives).
  apply (Harrives 3%nat); [reflexivity | | simpl; lia].
  intros [|[|[|i]]] Hi; try reflexivity. lia.
Defined.

(** ** The status record *)






(** * Further properties of the constructs *)

(** ** The constructor as a whole *)

(** X1. The constructor never throws and never leaves a partial pipeline:
    it ends either with no child, no edge and the clock unread, or with the
    six children (volume claim, status record, four jobs) under distinct
    ids, five clock readings and five edges; in both cases every edge joins
    two declared children and what was logged before is kept. *)
Theorem X1_constructor_all_or_nothing
    (props : DifyMigrationProps) (clk : Clock) (ticks : nat)
    (out : list string) :
  ∃ w lines,
    DifyMigrationConstruct props clk ticks out = Ok w ∧
    console w = out ++ lines ∧
    NoDup (childIds w) ∧
    (∀ a b, (a, b) ∈ dependencies w → a ∈ childIds w ∧ b ∈ childIds w) ∧
    ((childIds w = [] ∧ dependencies w = [] ∧ clockReads w = ticks) ∨
     (childIds w = ["migration-pvc"; "migration-configmap";
                    "extract-plugins-job"; "install-plugins-job";
                    "db-upgrade-job"; "data-migration-job"] ∧
      length (claims w) = 1%nat ∧ length (configMaps w) = 1%nat ∧
      length (jobs w) = 4%nat ∧
      length (dependencies w) = 5%nat ∧ clockReads w = (ticks + 5)%nat)).
Proof.
  destruct (gate_spec (config props)) eqn:Hg.
  - destruct (constructor_runs props clk ticks out Hg) as [lines H].
    eexists. exists lines. split; [exact H |]. split; [reflexivity |].
    split.
    { cbn. apply (bool_decide_unpack _). vm_compute. exact I. }
    split.
    { intros a b Hab. cbn in Hab.
      rewrite !elem_of_cons, elem_of_nil in Hab.
      decompose [or] Hab; try tauto;
        match goal with E : (_, _) = (_, _) |- _ => injection E as -> -> end;
        split; cbn; apply (bool_decide_unpack _); vm_compute; exact I. }
    right. repeat split.
  - destruct (constructor_skips props clk ticks out Hg) as [lines H].
    eexists. exists lines. split; [exact H |]. split; [reflexivity |].
    split; [constructor |].
    split; [intros a b Hab; cbn in Hab; by apply elem_of_nil in Hab |].
    left. repeat split.
Qed.

(** ** Names and volumes of the declared resources *)

Lemma prefixed_pretty_inj (pre : string) (a b : Z) :
  pre +:+ pretty a = pre +:+ pretty b → a = b.
Proof.
  intros H. apply (inj pretty).
  induction pre as [|c pre IH]; [exact H |].
  apply IH. by injection H.
Qed.

(** X2. The names of the four jobs of a pipeline are pairwise distinct
    whatever the clock reads, and the name of a job identifies the clock
    reading it was declared at: two pipelines give their jobs the same
    names exactly when the four clock readings agree.  The volume claim and
    the status record carry fixed names, the same in every pipeline. *)
Theorem X2_job_names_follow_the_clock
    (p p' : DifyMigrationProps) (clk clk' : Clock) (d d' : Z)
    (t1 t2 t3 t4 t1' t2' t3' t4' : Z) :
  NoDup (K8s.job_name <$> chain p t1 t2 t3 t4) ∧
  (K8s.job_name <$> chain p t1 t2 t3 t4
   = K8s.job_name <$> chain p' t1' t2' t3' t4'
   ↔ t1 = t1' ∧ t2 = t2' ∧ t3 = t3' ∧ t4 = t4') ∧
  K8s.pvc_name (migrationPvc p) = K8s.pvc_name (migrationPvc p') ∧
  K8s.cm_name (migrationConfigMap p clk d)
  = K8s.cm_name (migrationConfigMap p' clk' d').
Proof.
  split; [| split; [| split; reflexivity]].
  - cbn -[pretty]. repeat constructor;
      rewrite ?elem_of_cons, elem_of_nil; intros H;
      decompose [or] H; try tauto; discriminate.
  - cbn -[pretty]. split.
    + intros [= H1 H2 H3 H4].
      repeat split; eapply prefixed_pretty_inj;
        [exact (f_equal (String.append "dify-extract-plugi") H1)
        |exact (f_equal (String.append "dify-install-plugi") H2)
        |exact (f_equal (String.append "dify-db-upgr") H3)
        |exact (f_equal (String.append "dify-data-migrati") H4)].
    + by intros (-> & -> & -> & ->).
Qed.

(** X3. Every job of the chain is well formed with respect to its volumes:
    each volume mount of each container names a volume of the job; every
    container, init containers included, sees the shared store at
    /migration; that volume is bound to the very claim the constructor
    declares, in the namespace of the job; and the only secret the job
    reads is the database secret of the props. *)
Theorem X3_stage_volumes_resolve
    (props : DifyMigrationProps) (t1 t2 t3 t4 : Z) (j : K8s.Job) :
  j ∈ chain props t1 t2 t3 t4 →
  mountsResolved j = true ∧
  (∀ c, c ∈ K8s.job_initContainers j ++ K8s.job_containers j →
        mountedAt "migration-data" c = ["/migration"]) ∧
  K8s.vol_source <$>
    filter (fun v => K8s.vol_name v = "migration-data") (K8s.job_volumes j)
  = [K8s.PersistentVolumeClaimSource (K8s.pvc_name (migrationPvc props))] ∧
  K8s.job_namespace j = K8s.pvc_namespace (migrationPvc props) ∧
  secretsRead j = [dbSecretName props].
Proof.
  intros Hj.
  destruct (chain_cases _ _ _ _ _ _ Hj) as [-> | [-> | [-> | ->]]];
    (split; [reflexivity |]); (split; [| repeat split]);
    intros c Hc; cbn in Hc; rewrite !elem_of_cons, elem_of_nil in Hc;
    decompose [or] Hc; subst; try tauto; reflexivity.
Qed.

Lemma X3_witness :
  mountsResolved
    (installPluginsJob (Sample.props (Some Sample.migrationConfig) "1.4.2") 2)
  = true.
Proof.
  apply (X3_stage_volumes_resolve
           (Sample.props (Some Sample.migrationConfig) "1.4.2") 1 2 3 4 _
           ltac:(unfold chain; right; left)).
Defined.

(** ** What the stage bodies do with a failure *)

(** Runs a script of straight-line commands symbolically: the outcome of
    each external program and of each look at the store is split on. *)
Ltac run_script env :=
  unfold Run.script; cbn -[pretty];
  repeat (match goal with
          | |- context [Run.present env ?t ?p] =>
              destruct (Run.present env t p) eqn:?
          | |- context [Run.program env ?a ?t] =>
              destruct (Run.program env a t) as [? ?] eqn:?
          end; cbn -[pretty]).

(** X4. For props whose values spliced between double quotes hold no
    character the shell interprets there, the bodies of the install,
    db-upgrade and data-migration stages run without [set -e]: whatever
    their programs return (a failing flask command included) and whatever
    the store holds, the script runs to its last line, leaves its
    completion marker in the store and exits 0.  (The builtins [echo],
    [cd], [export] and [touch] are taken to succeed, as [Run.exec] has
    them.) *)
Theorem X4_stage_body_marks_completion_whatever_happens
    (props : DifyMigrationProps) (t1 t2 t3 t4 : Z) (N : nat) (j : K8s.Job)
    (c : K8s.Container) (env : Run.Env) (f : nat) (t : Z) :
  shellSafe props = true →
  (2 ≤ N ≤ 4)%nat →
  chain props t1 t2 t3 t4 !! (N - 1)%nat = Some j →
  c ∈ K8s.job_containers j →
  ∃ s, Run.script env (S f) t (K8s.c_args c) = Some s ∧
       Run.status s = 0 ∧ Run.exited s = false ∧
       marker N ∈ Run.written s.
Proof.
  intros _ HN Hj Hc.
  assert (N = 2 ∨ N = 3 ∨ N = 4)%nat as [-> | [-> | ->]] by lia;
    simpl in Hj; injection Hj as <-;
    cbn in Hc; apply list_elem_of_singleton in Hc; subst c;
    run_script env;
    (eexists; split; [reflexivity |]; split; [reflexivity |];
     split; [reflexivity |]; cbn; rewrite !elem_of_cons; auto).
Qed.

Lemma X4_witness :
  ∃ s, Run.script
         {| Run.present := fun _ _ => false; Run.program := fun _ _ => (1, 60) |}
         1 0
         [ Sh.Echo [Sh.Lit "Starting database upgrade..."] None;
           Sh.Cd "/app/api";
           Sh.Export "DB_USERNAME" [Sh.Lit "postgres"];
           Sh.Export "DB_PASSWORD" [Sh.CmdSubst ["cat"; "/etc/dify/db-secret/password"]];
           Sh.Export "DB_HOST" [Sh.Lit "db.local"];
           Sh.Export "DB_PORT" [Sh.Lit "5432"];
           Sh.Export "DB_DATABASE" [Sh.Lit "dify"];
           Sh.Export "MIGRATION_ENABLED" [Sh.Lit "false"];
           Sh.Run ["poetry"; "run"; "flask"; "db"; "upgrade"];
           Sh.Echo [Sh.Lit "Database upgrade completed."] None;
           Sh.Touch "/migration/db-upgrade-complete" ] = Some s ∧
       Run.status s = 0.
Proof.
  destruct (X4_stage_body_marks_completion_whatever_happens
              (Sample.props (Some Sample.migrationConfig) "1.4.2") 1 2 3 4
              3 _ _
              {| Run.present := fun _ _ => false;
                 Run.program := fun _ _ => (1, 60) |} 0 0
              eq_refl ltac:(lia) eq_refl ltac:(left))
    as (s & Hs & Hst & _).
  exists s. split; assumption.
Defined.

(** X5. For props whose values spliced between double quotes hold no
    character the shell interprets there, and whose number of extract
    workers is a safe integer (so that it is printed digit by digit), the
    body of the extract stage copies the manifest into the store only if
    the file is in the working directory once flask has ended, and exits
    with the status of its last line, [ls -la /migration/], not with the
    status of flask or of the copy: it can exit 0 and leave no marker. *)
Theorem X5_extract_body_outcome
    (props : DifyMigrationProps) (now : Z) (c : K8s.Container)
    (env : Run.Env) (f : nat) (t : Z) :
  shellSafe props = true →
  JS.isSafeInteger
    (JS.or_number (migration_field workers (config props) ≫= extract) 20)
  = true →
  c ∈ K8s.job_containers (extractPluginsJob props now) →
  let flask :=
    Run.program env
      ["poetry"; "run"; "flask"; "extract-plugins";
       "--workers=" +:+
       pretty (JS.or_number (migration_field workers (config props) ≫= extract) 20)]
      t in
  let ls := Run.program env ["ls"; "-la"; "/migration/"] (t + flask.2) in
  ∃ s, Run.script env (S f) t (K8s.c_args c) = Some s ∧
       Run.status s = ls.1 ∧
       Run.now s = t + flask.2 + ls.2 ∧
       Run.written s
       = (if Run.present env (t + flask.2) "plugins.jsonl"
          then [marker 1] else []).
Proof.
  intros _ _ Hc. cbn in Hc. apply list_elem_of_singleton in Hc. subst c.
  intros flask ls. subst flask ls.
  unfold Run.script. cbn -[pretty].
  destruct (Run.program env _ t) as [st d]. cbn -[pretty].
  destruct (Run.present env (t + d) "plugins.jsonl"); cbn;
    destruct (Run.program env _ (t + d)) as [st' d']; cbn;
    (eexists; split; [reflexivity |]; repeat split).
Qed.

Lemma X5_witness :
  ∃ s, Run.script
         {| Run.present := fun _ _ => false; Run.program := fun _ _ => (0, 30) |}
         1 0
         (K8s.c_args
            {| K8s.c_name := "extract-plugins";
               K8s.c_image := apiImage (Sample.props (Some Sample.migrationConfig) "1.4.2");
               K8s.c_command := ["/bin/sh"; "-c"];
               K8s.c_args :=
                 [ Sh.Echo [Sh.Lit "Starting plugin extraction..."] None;
                   Sh.Cd "/app/api" ]
                 ++ dbConnection (Sample.props (Some Sample.migrationConfig) "1.4.2") ++
                 [ Sh.Run ["poetry"; "run"; "flask"; "extract-plugins"; "--workers=20"];
                   Sh.Cp "plugins.jsonl" "/migration/plugins.jsonl";
                   Sh.Echo [Sh.Lit "Plugin extraction completed. File saved to /migration/plugins.jsonl"] None;
                   Sh.Run ["ls"; "-la"; "/migration/"] ];
               K8s.c_volumeMounts := stageVolumeMounts;
               K8s.c_env := stageEnv;
               K8s.c_resources := None |}) = Some s ∧
       Run.status s = 0 ∧ Run.written s = [].
Proof.
  destruct (X5_extract_body_outcome
              (Sample.props (Some Sample.migrationConfig) "1.4.2") 1 _
              {| Run.present := fun _ _ => false;
                 Run.program := fun _ _ => (0, 30) |} 0 0
              eq_refl eq_refl ltac:(left))
    as (s & Hs & Hst & _ & Hw).
  exists s. split; [exact Hs |]. split; [exact Hst | exact Hw].
Defined.

(** X6. The body of the stand-alone database-migration job runs under
    [set -e]: it exits with the status of [flask db upgrade], and when that
    status is not 0 the script stops there, without the completion line;
    it writes no file.  ([cd] and [source] are taken to succeed, as
    [Run.exec] has them.) *)
Theorem X6_database_migration_body_stops_on_failure
    (dprops : DatabaseMigrationProps) (jobName registry : string)
    (c : K8s.Container) (env : Run.Env) (f : nat) (t : Z) :
  c ∈ K8s.job_containers (migrationJob dprops jobName registry) →
  let flask := Run.program env ["flask"; "db"; "upgrade"] t in
  ∃ s, Run.script env (S f) t (K8s.c_args c) = Some s ∧
       Run.status s = flask.1 ∧
       Run.now s = t + flask.2 ∧
       Run.exited s = negb (flask.1 =? 0) ∧
       Run.stdout s
       = [Sh.Lit "Starting database migration..."]
         :: (if flask.1 =? 0
             then [[Sh.Lit "Database migration completed!"]] else []) ∧
       Run.written s = [].
Proof.
  intros Hc. cbn in Hc. apply list_elem_of_singleton in Hc. subst c.
  intros flask. subst flask.
  unfold Run.script. cbn -[pretty].
  destruct (Run.program env _ t) as [st d]. cbn.
  destruct (st =? 0) eqn:Hst; cbn.
  - apply Z.eqb_eq in Hst. subst st.
    eexists. split; [reflexivity |]. repeat split.
  - eexists. split; [reflexivity |]. repeat split. cbn. by rewrite Hst.
Qed.

Lemma X6_witness :
  ∃ s, Run.script
         {| Run.present := fun _ _ => false; Run.program := fun _ _ => (2, 9) |}
         1 0
         [ Sh.SetErrexit;
           Sh.Echo [Sh.Lit "Starting database migration..."] None;
           Sh.Cd "/app/api";
           Sh.Source ".venv/bin/activate";
           Sh.Run ["flask"; "db"; "upgrade"];
           Sh.Echo [Sh.Lit "Database migration completed!"] None ] = Some s ∧
       Run.status s = 2 ∧ Run.exited s = true.
Proof.
  destruct (X6_database_migration_body_stops_on_failure
              Sample.dbProps "dify-db-migration-0" "" _
              {| Run.present := fun _ _ => false;
                 Run.program := fun _ _ => (2, 9) |} 0 0 ltac:(left))
    as (s & Hs & Hst & _ & Hx & _).
  exists s. split; [exact Hs |]. split; [exact Hst | exact Hx].
Defined.

(** ** The entry procedure of the stand-alone job *)

Section UntilReady.

Variable env : Run.Env.
Variable argv : list string.

Lemma pause_calm f s :
  calm s →
  ∃ s', pause env (S f) s = Some s' ∧ calm s' ∧ Run.now s' = Run.now s + 5.
Proof.
  intros (He & Hx). unfold pause. cbn. rewrite He. cbn.
  eexists. split; [reflexivity |]. unfold calm. cbn. by rewrite He.
Qed.

(** A loop that ends has ended on a probe that answered 0. *)
Lemma until_sound f n : ∀ s s',
  calm s →
  Run.loop n (probing env argv) (pause env f) s = Some s' →
  calm s' ∧
  ∃ τ, (Run.program env argv τ).1 = 0 ∧
       Run.now s' = τ + (Run.program env argv τ).2.
Proof.
  induction n as [|n IH]; intros s s' Hc Hrun; [discriminate |].
  rewrite loop_S in Hrun. unfold probing in Hrun.
  destruct (Run.program env argv (Run.now s)) as [st d] eqn:Hprobe.
  destruct (Z.eqb_spec st 0) as [-> | Hne]; cbn [negb] in Hrun.
  - injection Hrun as <-. split; [split; [apply Hc | reflexivity] |].
    exists (Run.now s). by rewrite Hprobe.
  - destruct f as [|f]; [discriminate |].
    destruct (pause_calm f
                {| Run.now := Run.now s + d; Run.written := Run.written s;
                   Run.stdout := Run.stdout s; Run.status := Run.status s;
                   Run.errexit := Run.errexit s; Run.exited := false |})
      as (s2 & Hp & Hc2 & _); [split; [apply Hc | reflexivity] |].
    rewrite Hp in Hrun. rewrite (proj2 Hc2) in Hrun.
    exact (IH _ _ Hc2 Hrun).
Qed.

(** While every probe fails the loop does not end. *)
Lemma until_forever f n : ∀ s,
  calm s →
  (∀ τ, (Run.program env argv τ).1 ≠ 0) →
  Run.loop n (probing env argv) (pause env f) s = None.
Proof.
  induction n as [|n IH]; intros s Hc Hfail; [reflexivity |].
  rewrite loop_S. unfold probing.
  pose proof (Hfail (Run.now s)) as Hnow.
  destruct (Run.program env argv (Run.now s)) as [st d].
  destruct (Z.eqb_spec st 0) as [-> | Hne]; [done |]. cbn [negb].
  destruct f as [|f]; [reflexivity |].
  destruct (pause_calm f
              {| Run.now := Run.now s + d; Run.written := Run.written s;
                 Run.stdout := Run.stdout s; Run.status := Run.status s;
                 Run.errexit := Run.errexit s; Run.exited := false |})
    as (s2 & Hp & Hc2 & _); [split; [apply Hc | reflexivity] |].
  rewrite Hp, (proj2 Hc2). by apply IH.
Qed.

End UntilReady.

Lemma start_calm t : calm (Run.start t).
Proof. by split. Qed.

(** The entry procedure of the stand-alone job is its probe loop. *)
Lemma entry_is_probe_loop dprops jobName registry env f t :
  Run.entry env (S f) t
    (K8s.job_initContainers (migrationJob dprops jobName registry))
  = match Run.loop (S f) (probing env (pg_isready dprops)) (pause env f)
                   (Run.start t) with
    | Some s => Run.BodyStarts (Run.now s)
    | None => Run.Waiting
    end.
Proof.
  unfold Run.entry, Run.script.
  cbn [migrationJob K8s.job_initContainers K8s.c_args Run.sequence Run.exec
       Run.start Run.now Run.written Run.stdout Run.errexit].
  change (Run.loop (S f) _ _ _)
    with (Run.loop (S f) (probing env (pg_isready dprops)) (pause env f)
                   (Run.start t)).
  destruct (Run.loop _ _ _ _) as [s|] eqn:Hrun; [| reflexivity].
  destruct (until_sound env _ f _ _ _ (start_calm t) Hrun)
    as ((He & Hx) & _).
  rewrite Hx. cbn. by rewrite He.
Qed.

(** X7. When the endpoint, the port and the user name of the database are
    each one plain word (they are spliced into the loop condition outside
    quotes), the init container of the stand-alone database-migration job
    lets the body start only right after a [pg_isready] probe that
    answered 0; it never fails; its script never ends by itself while
    every probe fails; and when the first probe answers 0 the body starts
    as soon as that probe returns. *)
Theorem X7_database_job_waits_for_pg_isready
    (dprops : DatabaseMigrationProps) (jobName registry : string)
    (env : Run.Env) (t0 : Z) :
  probeSafe (dm_database dprops) = true →
  let inits := K8s.job_initContainers (migrationJob dprops jobName registry) in
  let probe τ := Run.program env (pg_isready dprops) τ in
  (∀ fuel t, Run.entry env fuel t0 inits = Run.BodyStarts t →
             ∃ τ, (probe τ).1 = 0 ∧ t = τ + (probe τ).2) ∧
  (∀ fuel st, Run.entry env fuel t0 inits ≠ Run.InitFails st) ∧
  ((∀ τ, (probe τ).1 ≠ 0) →
   ∀ fuel, Run.entry env fuel t0 inits = Run.Waiting) ∧
  ((probe t0).1 = 0 →
   ∀ fuel, (1 ≤ fuel)%nat →
           Run.entry env fuel t0 inits = Run.BodyStarts (t0 + (probe t0).2)).
Proof.
  intros _ inits probe. subst inits probe. repeat split.
  - intros [|f] t; [discriminate |]. rewrite entry_is_probe_loop.
    destruct (Run.loop _ _ _ _) as [s|] eqn:Hrun; [| discriminate].
    intros [= <-].
    by destruct (until_sound env _ f _ _ _ (start_calm t0) Hrun)
      as (_ & τ & H0 & Ht); exists τ.
  - intros [|f] st; [discriminate |]. rewrite entry_is_probe_loop.
    by destruct (Run.loop _ _ _ _).
  - intros Hfail [|f]; [reflexivity |].
    by rewrite entry_is_probe_loop, until_forever; [| apply start_calm |].
  - intros Hready [|f] Hfuel; [lia |].
    rewrite entry_is_probe_loop, loop_S. unfold probing.
    cbn [Run.start Run.now].
    destruct (Run.program env (pg_isready dprops) t0) as [st d].
    cbn in Hready. subst st. reflexivity.
Qed.

Lemma X7_witness :
  Run.entry (Sample.env "" 0) 1 0
    (K8s.job_initContainers (migrationJob Sample.dbProps "dify-db-migration-0" ""))
  = Run.BodyStarts 1.
Proof.
  destruct (X7_database_job_waits_for_pg_isready
              Sample.dbProps "dify-db-migration-0" "" (Sample.env "" 0) 0
              eq_refl)
    as (_ & _ & _ & Hready).
  exact (Hready eq_refl 1%nat ltac:(lia)).
Defined.

(** ** From one stage to the next *)

(** X8. Hand-over between stages: if the marker of stage N-1 is in the
    store from the instant [te] on and not before, the body of stage N,
    whose entry procedure began at [t0], starts at a poll that is neither
    before [te] nor before [t0] and less than 5 seconds after the later of
    the two, given fuel for the polls in between. *)
Theorem X8_next_stage_starts_within_five_seconds
    (props : DifyMigrationProps) (t1 t2 t3 t4 : Z) (N : nat) (j : K8s.Job)
    (env : Run.Env) (t0 te : Z) :
  (2 ≤ N ≤ 4)%nat →
  chain props t1 t2 t3 t4 !! (N - 1)%nat = Some j →
  (∀ τ, Run.present env τ (marker (N - 1)) = (te <=? τ)) →
  ∃ t' fuel0,
    Z.max t0 te ≤ t' < Z.max t0 te + 5 ∧
    ∀ fuel, (fuel0 ≤ fuel)%nat →
      Run.entry env fuel t0 (K8s.job_initContainers j) = Run.BodyStarts t'.
Proof.
  intros HN Hj Hseen.
  assert (Hw : waits_for env t0 j (marker (N - 1))).
  { assert (N = 2 ∨ N = 3 ∨ N = 4)%nat as [-> | [-> | ->]] by lia;
      simpl in Hj; injection Hj as <-;
      eapply wait_container_waits; reflexivity. }
  destruct Hw as (_ & _ & _ & _ & Harrives).
  pose proof (Z.mul_div_le (te - t0 + 4) 5 ltac:(lia)) as Hlo.
  pose proof (Z.mul_succ_div_gt (te - t0 + 4) 5 ltac:(lia)) as Hhi.
  set (q := (te - t0 + 4) / 5) in *.
  exists (t0 + 5 * Z.of_nat (Z.to_nat q)), (Z.to_nat q + 2)%nat.
  split; [lia |].
  intros fuel Hfuel. apply Harrives; [| | exact Hfuel].
  - rewrite Hseen. apply Z.leb_le. lia.
  - intros i Hi. rewrite Hseen. apply Z.leb_gt. lia.
Qed.

Lemma X8_witness :
  ∃ t' fuel0,
    Z.max 0 12 ≤ t' < Z.max 0 12 + 5 ∧
    ∀ fuel, (fuel0 ≤ fuel)%nat →
      Run.entry (Sample.env (marker 2) 12) fuel 0
        (K8s.job_initContainers
           (dbUpgradeJob (Sample.props (Some Sample.migrationConfig) "1.4.2") 3))
      = Run.BodyStarts t'.
Proof.
  exact (X8_next_stage_starts_within_five_seconds
           (Sample.props (Some Sample.migrationConfig) "1.4.2") 1 2 3 4
           3 _ (Sample.env (marker 2) 12) 0 12
           ltac:(lia) eq_refl ltac:(intros τ; reflexivity)).
Defined.

(** ** The stand-alone database-migration construct *)

(** X9. [DatabaseMigrationConstruct] never throws.  Unless
    [dify.dbMigration.enabled] is exactly true it declares nothing and does
    not read the clock; when it is, it declares the one migration job, named
    after the clock reading, whose image comes from the China-region registry
    when [isChinaRegion] is set and from no registry otherwise.  The
    [imageRegistry] of the props has no effect at all. *)
Theorem X9_database_migration_construct
    (dprops : DatabaseMigrationProps) (clk : Clock) (ticks : nat)
    (out : list string) :
  let on := dbMigration (dify (dm_config dprops)) ≫= dbMigrationEnabled in
  let registry :=
    if JS.truthy_bool (isChinaRegion (dm_config dprops))
    then "048912060910.dkr.ecr.cn-northwest-1.amazonaws.com.cn/dockerhub/"
    else "" in
  (∃ w, DatabaseMigrationConstruct dprops clk ticks out = Ok w ∧
        console w = out ∧ dependencies w = [] ∧
        if decide (on = Some true)
        then childIds w = ["migration-job"] ∧
             jobs w = [migrationJob dprops
                         ("dify-db-migration-" +:+ pretty (Date_now clk ticks))
                         registry] ∧
             K8s.c_image <$> K8s.job_containers
                               (migrationJob dprops "" registry)
             = [registry +:+ "langgenius/dify-api:" +:+ dm_difyVersion dprops] ∧
             clockReads w = S ticks
        else children w = [] ∧ clockReads w = ticks) ∧
  (∀ r, DatabaseMigrationConstruct (withImageRegistry r dprops) clk ticks out
        = DatabaseMigrationConstruct dprops clk ticks out).
Proof.
  intros on registry. subst on registry. split; [| reflexivity].
  unfold DatabaseMigrationConstruct, databaseMigrationBody.
  destruct (dbMigration (dify (dm_config dprops)) ≫= dbMigrationEnabled)
    as [[]|]; (eexists; split; [reflexivity |]);
    (split; [reflexivity |]); (split; [reflexivity |]);
    case_decide; try done; repeat split.
Qed.

(** ** The storage bucket *)

(** X10. For every [s3] block the constructor of [S3Stack] asks for a
    bucket that deletes its objects automatically exactly when its removal
    policy is DESTROY, which is exactly when [removeWhenDestroyed] is true
    (unset counts as false); and the line logged ends with the name of the
    policy actually asked for, whatever the library prints for the bucket
    name. *)
Theorem X10_bucket_removal_is_consistent
    (s3 : S3Config) (account region : string) (print : BucketAttr -> string) :
  let r := S3Stack s3 account region print in
  (autoDeleteObjects (bucket r) = true ↔ removalPolicy (bucket r) = DESTROY) ∧
  (removalPolicy (bucket r) = DESTROY ↔ removeWhenDestroyed s3 = Some true) ∧
  s3_console r
  = [ "S3配置: 存储桶=" +:+ print BucketNameAttr +:+ ", 删除策略="
      +:+ match removalPolicy (bucket r) with
          | DESTROY => "DESTROY"
          | RETAIN => "RETAIN"
          end ].
Proof.
  intros r. subst r. unfold S3Stack. cbn.
  destruct (removeWhenDestroyed s3) as [[]|]; cbn; repeat split; try done.
Qed.

(** ** The caller of the stand-alone construct *)

Lemma helm_has_child_app id cs deps out ticks c :
  helm_has_child id {| helm_children := cs ++ [c]; helm_dependencies := deps;
                       helm_console := out; helm_clockReads := ticks |}
  = existsb (fun k => String.eqb (helmChildId k) id) cs
    || String.eqb (helmChildId c) id.
Proof.
  unfold helm_has_child. cbn [helm_children].
  rewrite existsb_app. cbn. by rewrite orb_false_r.
Qed.

(** X11. In a helm construct where the ids DbSecret and DbMigration are
    free, the migration step never throws.  When [dbMigration.enabled] is
    set it adds exactly one secret and one job: every secret key the job
    reads is a key of that secret, which lives in the namespace of the job
    and holds the password handed in; the user name given to the job in
    DB_USERNAME is the one of the secret; and the edges DbSecret ->
    namespace and DbMigration -> DbSecret are added.  The readiness probe
    splices the endpoint, the port and the user name outside quotes: when
    each of them is one plain word, the probe is pg_isready with that
    endpoint, that port and, after -U, the same user name.  When
    [dbMigration.enabled] is not set the construct is left as it was. *)
Theorem X11_migration_step_wires_secret_and_job
    (props : DifyHelmConstructProps) (clk : Clock)
    (namespace dbPassword ns : string) (s : HelmScope) :
  helm_has_child "DbSecret" s = false →
  helm_has_child "DbMigration" s = false →
  ∃ s', databaseMigrationStep props clk namespace dbPassword ns s = Ok s' ∧
    if JS.truthy_bool (dbMigration (dify (helm_config props)) ≫= dbMigrationEnabled)
    then
      ∃ secret j,
        helmSecrets s' = helmSecrets s ++ [secret] ∧
        helmJobs s' = helmJobs s ++ [j] ∧
        (∀ n k, (n, k) ∈ secretRefs j →
                n = secret_name secret ∧ is_Some (stringData secret !! k)) ∧
        secretRefs j ≠ [] ∧
        secret_namespace secret = K8s.job_namespace j ∧
        stringData secret !! "password" = Some dbPassword ∧
        stringData secret !! "username" = envValue "DB_USERNAME" j ∧
        (probeSafe (dm_database (dbMigrationProps props namespace
                                                  "dify-db-credentials" ""))
         = true →
         ∃ user, envValue "DB_USERNAME" j = Some user ∧
                 ∀ c, c ∈ K8s.job_initContainers j →
                      Touches.programs <$> K8s.c_args c
                      = [ [["pg_isready"; "-h"; helm_dbEndpoint props;
                            "-p"; helm_dbPort props; "-U"; user]]; [] ]) ∧
        helm_dependencies s'
        = helm_dependencies s ++ [("DbSecret", ns); ("DbMigration", "DbSecret")] ∧
        helm_clockReads s' = S (helm_clockReads s)
    else s' = s.
Proof.
  intros Hsecret Hmig.
  unfold databaseMigrationStep.
  destruct (dbMigration (dify (helm_config props)) ≫= dbMigrationEnabled)
    as [[]|] eqn:Hon; cbn [JS.truthy_bool]; try (by eexists).
  unfold createDatabaseMigration, helm_addChild.
  change (helm_has_child _ (helm_log _ s)) with (helm_has_child "DbSecret" s).
  rewrite Hsecret. unfold helm_addDependency at 1. unfold helm_log at 1 2 3.
  cbn [helm_children helm_dependencies helm_console helm_clockReads].
  rewrite helm_has_child_app.
  change (existsb _ (helm_children s)) with (helm_has_child "DbMigration" s).
  rewrite Hmig. cbn [orb helmChildId].
  change ("DbSecret" =? "DbMigration")%string with false. cbv iota.
  unfold DatabaseMigrationConstruct, databaseMigrationBody.
  cbn [dm_config dbMigrationProps]. rewrite Hon.
  eexists. split; [reflexivity |].
  eexists. eexists.
  split.
  { unfold helmSecrets.
    cbn [helm_children helm_log helm_addDependency].
    rewrite !omap_app. cbn. rewrite app_nil_r. reflexivity. }
  split.
  { unfold helmJobs.
    cbn [helm_children helm_log helm_addDependency].
    rewrite !flat_map_app. cbn. rewrite !app_nil_r. reflexivity. }
  split.
  { intros n k Hnk. cbn in Hnk. rewrite !elem_of_cons, elem_of_nil in Hnk.
    destruct Hnk as [[= -> ->] | [[= -> ->] | []]];
      (split; [reflexivity |]); cbn [stringData];
      rewrite lookup_insert_eq; by eexists. }
  split; [discriminate |].
  split; [reflexivity |].
  split; [cbn [stringData]; by rewrite lookup_insert_eq |].
  split.
  { cbn [stringData]. rewrite lookup_insert_ne, lookup_insert_eq by done.
    reflexivity. }
  split.
  { intros _. eexists. split; [reflexivity |].
    intros c Hc. cbn in Hc. apply list_elem_of_singleton in Hc. by subst c. }
  split.
  { cbn. rewrite <- app_assoc. reflexivity. }
  reflexivity.
Qed.

Lemma X11_witness :
  ∃ s' j user,
    databaseMigrationStep SampleHelm.props Sample.clock
      "dify" "secret" "Namespace" SampleHelm.empty = Ok s' ∧
    helmJobs s' = [j] ∧
    envValue "DB_USERNAME" j = Some user ∧
    ∀ c, c ∈ K8s.job_initContainers j →
         Touches.programs <$> K8s.c_args c
         = [ [["pg_isready"; "-h"; "db.local"; "-p"; "5432"; "-U"; user]];
             [] ].
Proof.
  destruct (X11_migration_step_wires_secret_and_job
              SampleHelm.props Sample.clock "dify" "secret" "Namespace"
              SampleHelm.empty eq_refl eq_refl)
    as (s' & Hs & Hon).
  cbn [JS.truthy_bool SampleHelm.props helm_config Sample.systemConfig dify
       dbMigration dbMigrationEnabled mbind option_bind] in Hon.
  destruct Hon as (secret & j & _ & Hj & _ & _ & _ & _ & _ & Hprobe & _).
  destruct (Hprobe eq_refl) as (user & Huser & Hc).
  exists s', j, user. split; [exact Hs |]. split; [exact Hj |].
  split; [exact Huser | exact Hc].
Defined.

(** X12. [createDatabaseMigration] cannot run twice on one construct: on
    the construct a first run has returned, a second run throws for the
    duplicate child DbSecret, whatever its arguments are. *)
Theorem X12_create_database_migration_twice_throws
    (props props' : DifyHelmConstructProps) (clk clk' : Clock)
    (namespace dbPassword ns namespace' dbPassword' ns' : string)
    (s s1 : HelmScope) :
  createDatabaseMigration props clk namespace dbPassword ns s = Ok s1 →
  createDatabaseMigration props' clk' namespace' dbPassword' ns' s1
  = Throw (DuplicateChild "DbSecret").
Proof.
  unfold createDatabaseMigration at 1. unfold helm_addChild.
  destruct (helm_has_child _ _); [discriminate |].
  destruct (helm_has_child _ _); [discriminate |].
  destruct (DatabaseMigrationConstruct _ _ _ _) as [c|]; [| discriminate].
  intros [= <-].
  unfold createDatabaseMigration, helm_addChild.
  replace (helm_has_child _ _) with true; [reflexivity |].
  unfold helm_has_child, helm_log, helm_addDependency.
  cbn [helm_children helmChildId].
  rewrite !existsb_app. cbn. by rewrite orb_true_r.
Qed.

Lemma X12_witness :
  ∃ s1,
    createDatabaseMigration SampleHelm.props Sample.clock
      "dify" "secret" "Namespace" SampleHelm.empty = Ok s1 ∧
    createDatabaseMigration SampleHelm.props Sample.clock
      "dify" "secret" "Namespace" s1
    = Throw (DuplicateChild "DbSecret").
Proof.
  eexists. split; [reflexivity |].
  apply (X12_create_database_migration_twice_throws
           SampleHelm.props SampleHelm.props Sample.clock Sample.clock
           "dify" "secret" "Namespace" "dify" "secret" "Namespace"
           SampleHelm.empty).
  reflexivity.
Defined.

(** * The configuration loader *)

(** ** Folding over the properties of the source *)

(** What [forEach] leaves in [output]: every property of the source has
    been assigned, the other properties are those [output] began with; it
    fails exactly when some assignment does. *)
Lemma fold_step_spec rec (tm out0 sm : gmap string Json.Value) :
  match map_fold (Json.step rec tm) (Some out0) sm with
  | Some r =>
      ∀ k, match sm !! k with
           | Some sv => ∃ v, Json.assigned rec tm k sv = Some v ∧ r !! k = Some v
           | None => r !! k = out0 !! k
           end
  | None => ∃ k sv, sm !! k = Some sv ∧ Json.assigned rec tm k sv = None
  end.
Proof.
  apply (map_fold_weak_ind
           (fun acc m =>
              match acc with
              | Some r =>
                  ∀ k, match m !! k with
                       | Some sv => ∃ v, Json.assigned rec tm k sv = Some v
                                         ∧ r !! k = Some v
                       | None => r !! k = out0 !! k
                       end
              | None => ∃ k sv, m !! k = Some sv
                                ∧ Json.assigned rec tm k sv = None
              end)).
  - intros k. by rewrite lookup_empty.
  - intros i x m acc Hi IH. destruct acc as [r|]; simpl.
    + destruct (Json.assigned rec tm i x) as [v|] eqn:Hv.
      * intros k. destruct (decide (k = i)) as [-> | Hne].
        -- rewrite lookup_insert_eq. exists v. by rewrite lookup_insert_eq.
        -- rewrite !lookup_insert_ne by done. apply IH.
      * exists i, x. by rewrite lookup_insert_eq.
    + destruct IH as (k & sv & Hk & Hnone). exists k, sv. split; [| done].
      rewrite lookup_insert_ne; [done |]. intros ->. congruence.
Qed.

Lemma size_lookup (m : gmap string Json.Value) k x :
  m !! k = Some x → (Json.size x < Json.size (Json.Object m))%nat.
Proof.
  simpl. revert k x.
  apply (map_fold_weak_ind
           (fun n (m : gmap string Json.Value) =>
              ∀ k x, m !! k = Some x → (Json.size x < S n)%nat)).
  - intros k x. by rewrite lookup_empty.
  - intros i y m' n Hi IH k x. destruct (decide (k = i)) as [-> | Hne].
    + rewrite lookup_insert_eq. intros [= ->]. lia.
    + rewrite lookup_insert_ne by done. intros Hk.
      specialize (IH k x Hk). lia.
Qed.

(** Induction on a value through the properties of objects. *)
Lemma value_props_ind (P : Json.Value → Prop) :
  (∀ v, (∀ m k x, v = Json.Object m → m !! k = Some x → P x) → P v) →
  ∀ v, P v.
Proof.
  intros Hstep v.
  assert (H : ∀ n v, (Json.size v < n)%nat → P v).
  { induction n as [|n IH]; intros w Hw; [lia |].
    apply Hstep. intros m k x -> Hk. apply IH.
    pose proof (size_lookup m k x Hk). lia. }
  apply (H (S (Json.size v))). lia.
Qed.

Lemma protoFree_object (m : gmap string Json.Value) :
  Json.protoFree (Json.Object m) = true →
  m !! "__proto__" = None ∧
  ∀ k x, m !! k = Some x → Json.protoFree x = true.
Proof.
  simpl. intros [Hp Hall]%andb_true_iff. split.
  - apply negb_true_iff, bool_decide_eq_false in Hp.
    destruct (m !! "__proto__") eqn:E; [| done].
    exfalso. apply Hp. by eexists.
  - revert Hall.
    apply (map_fold_weak_ind
             (fun b (m : gmap string Json.Value) =>
                b = true → ∀ k x, m !! k = Some x → Json.protoFree x = true)).
    + intros _ k x. by rewrite lookup_empty.
    + intros i y m' b Hi IH [Hy Hb]%andb_true_iff k x.
      destruct (decide (k = i)) as [-> | Hne].
      * rewrite lookup_insert_eq. by intros [= <-].
      * rewrite lookup_insert_ne by done. by apply IH.
Qed.

Lemma mergeDeep_objects (tm sm : gmap string Json.Value) :
  Json.mergeDeep (Json.Object tm) (Json.Object sm)
  = match Json.spread (Json.Object tm) with
    | None => None
    | Some output =>
        Json.Object <$> map_fold (Json.step Json.mergeDeep tm) (Some output) sm
    end.
Proof. reflexivity. Qed.

Lemma mergeDeep_not_objects t s :
  Json.isObject t && Json.isObject s = false →
  Json.mergeDeep t s = Json.Object <$> Json.spread t.
Proof.
  destruct t, s; simpl; try discriminate; intros _;
    try reflexivity; by destruct (bool_decide _).
Qed.

Lemma spread_protoFree t :
  Json.protoFree t = true → ∃ out, Json.spread t = Some out.
Proof.
  destruct t; simpl; try by eexists.
  intros [Hp _]%andb_true_iff. apply negb_true_iff in Hp. rewrite Hp.
  by eexists.
Qed.

Lemma spread_object (tm out : gmap string Json.Value) :
  Json.spread (Json.Object tm) = Some out → out = tm.
Proof. simpl. destruct (bool_decide _); congruence. Qed.

(** The merge is defined on values without [__proto__] properties. *)
Lemma mergeDeep_defined : ∀ s t,
  Json.protoFree t = true → Json.protoFree s = true →
  ∃ r, Json.mergeDeep t s = Some (Json.Object r).
Proof.
  induction s as [s IH] using value_props_ind. intros t Ht Hs.
  destruct (spread_protoFree t Ht) as [out Hout].
  destruct (Json.isObject t && Json.isObject s) eqn:Hobj.
  - destruct t as [| | | | |tm]; try discriminate.
    destruct s as [| | | | |sm]; try discriminate.
    rewrite mergeDeep_objects, Hout.
    pose proof (fold_step_spec Json.mergeDeep tm out sm) as Hfold.
    destruct (map_fold _ _ _) as [r|]; [by eexists |].
    exfalso. destruct Hfold as (k & sv & Hk & Hnone).
    destruct (protoFree_object sm Hs) as [Hproto Hsm].
    destruct (protoFree_object tm Ht) as [_ Htm].
    unfold Json.assigned in Hnone.
    destruct (String.eqb_spec k "__proto__") as [-> | _]; [congruence |].
    destruct (Json.isObject sv); [| discriminate].
    destruct (tm !! k) as [tv|] eqn:Htv.
    + destruct (IH sm k sv eq_refl Hk tv (Htm _ _ Htv) (Hsm _ _ Hk)) as [r Hr].
      congruence.
    + by destruct (bool_decide _).
  - rewrite (mergeDeep_not_objects _ _ Hobj), Hout. by eexists.
Qed.

(** A merge of two objects that is defined has assigned every property of
    the source and kept the other properties of the target. *)
Lemma mergeDeep_objects_spec (tm sm : gmap string Json.Value) R :
  Json.mergeDeep (Json.Object tm) (Json.Object sm) = Some R →
  ∃ r, R = Json.Object r ∧
       ∀ k, match sm !! k with
            | Some sv => ∃ v, Json.assigned Json.mergeDeep tm k sv = Some v
                              ∧ r !! k = Some v
            | None => r !! k = tm !! k
            end.
Proof.
  rewrite mergeDeep_objects.
  destruct (Json.spread (Json.Object tm)) as [out|] eqn:Hout; [| discriminate].
  apply spread_object in Hout. subst out.
  pose proof (fold_step_spec Json.mergeDeep tm tm sm) as Hfold.
  destruct (map_fold _ _ _) as [r|]; [| discriminate].
  intros [= <-]. by exists r.
Qed.

(** A leaf of the source shows up in the merge when the path fits the
    target. *)
Lemma get_merge_override : ∀ path t s R v,
  Json.mergeDeep t s = Some R →
  Json.get path s = Some v →
  Json.isObject v = false →
  path ≠ [] →
  Forall (fun k => k ∉ Json.inherited) path →
  Json.fits path t = true →
  Json.get path R = Some v.
Proof.
  induction path as [|k rest IH]; intros t s R v Hm Hs Hv Hne Hin Hfit;
    [done |].
  destruct s as [| | | | |sm]; try discriminate.
  simpl in Hs. destruct (sm !! k) as [sv|] eqn:Hk; [| discriminate].
  assert (∃ tm, t = Json.Object tm) as [tm ->].
  { destruct t; try (by destruct rest); by eexists. }
  destruct (mergeDeep_objects_spec tm sm R Hm) as (r & -> & Hr).
  specialize (Hr k). rewrite Hk in Hr. destruct Hr as (v' & Ha & Hrk).
  simpl. rewrite Hrk.
  unfold Json.assigned in Ha.
  destruct (String.eqb k "__proto__"); [discriminate |].
  destruct rest as [|k' rest'].
  - simpl in Hs. injection Hs as ->. rewrite Hv in Ha. by injection Ha as ->.
  - assert (Json.isObject sv = true) as Hsv.
    { destruct sv; try discriminate. reflexivity. }
    rewrite Hsv in Ha.
    apply Forall_cons in Hin as [Hk_in Hrest].
    simpl in Hfit.
    destruct (tm !! k) as [tv|] eqn:Htv.
    + apply andb_true_iff in Hfit as [_ Hfit].
      by apply (IH tv sv v' v).
    + rewrite bool_decide_eq_false_2 in Ha by done.
      by injection Ha as <-.
Qed.

(** A value of the target is kept when the source says nothing about its
    path. *)
Lemma get_merge_keep : ∀ path t s R v,
  Json.mergeDeep t s = Some R →
  Json.get path t = Some v →
  Json.untouched path s = true →
  Json.get path R = Some v.
Proof.
  induction path as [|k rest IH]; intros t s R v Hm Ht Hs;
    [by destruct s |].
  destruct s as [| | | | |sm]; try discriminate.
  destruct t as [| | | | |tm]; try discriminate.
  simpl in Ht, Hs. destruct (tm !! k) as [tv|] eqn:Htv; [| discriminate].
  destruct (mergeDeep_objects_spec tm sm R Hm) as (r & -> & Hr).
  specialize (Hr k). simpl.
  destruct (sm !! k) as [sv|] eqn:Hk.
  - apply andb_true_iff in Hs as [Hsv Hs].
    destruct Hr as (v' & Ha & Hrk). rewrite Hrk.
    unfold Json.assigned in Ha.
    destruct (String.eqb k "__proto__"); [discriminate |].
    rewrite Hsv, Htv in Ha. by apply (IH tv sv v' v).
  - by rewrite Hr, Htv.
Qed.

(** ** Properties of [mergeDeep] *)

(** X13. On values without [__proto__] properties [mergeDeep] is defined
    and always returns an object.  Unless both target and source are
    objects the source is ignored and the result is the spread of the
    target alone (empty for a number, a boolean or null); when both are,
    the properties of the result are those of the target together with
    those of the source. *)
Theorem X13_merge_returns_an_object (t s : Json.Value) :
  Json.protoFree t = true → Json.protoFree s = true →
  ∃ r, Json.mergeDeep t s = Some (Json.Object r) ∧
       (Json.isObject t && Json.isObject s = false →
        Json.spread t = Some r) ∧
       (∀ tm sm, t = Json.Object tm → s = Json.Object sm →
                 dom r = dom tm ∪ dom sm).
Proof.
  intros Ht Hs. destruct (mergeDeep_defined s t Ht Hs) as [r Hr].
  exists r. split; [exact Hr |]. split.
  - intros Hobj. rewrite (mergeDeep_not_objects _ _ Hobj) in Hr.
    destruct (Json.spread t); [| discriminate]. by injection Hr as ->.
  - intros tm sm -> ->.
    destruct (mergeDeep_objects_spec tm sm _ Hr) as (r' & [= <-] & Hspec).
    apply set_eq. intros k. rewrite elem_of_union, !elem_of_dom.
    specialize (Hspec k). destruct (sm !! k) as [sv|].
    + destruct Hspec as (v & _ & ->). split; [by right; eexists | by eexists].
    + rewrite Hspec. split; [by left | intros [? | [? ?]]; done].
Qed.

Lemma X13_witness :
  ∃ r, Json.mergeDeep (Json.Number 5) (Json.obj [("a", Json.Number 1)])
       = Some (Json.Object r) ∧ Json.spread (Json.Number 5) = Some r.
Proof.
  destruct (X13_merge_returns_an_object
              (Json.Number 5) (Json.obj [("a", Json.Number 1)])
              eq_refl eq_refl) as (r & Hr & Hs & _).
  exists r. split; [exact Hr |]. by apply Hs.
Defined.

(** X14. Merging an object without [__proto__] properties with itself
    gives the object back. *)
Theorem X14_merge_with_itself : ∀ v,
  Json.protoFree v = true → Json.isObject v = true →
  Json.mergeDeep v v = Some v.
Proof.
  induction v as [v IH] using value_props_ind. intros Hp Hobj.
  destruct v as [| | | | |m]; try discriminate.
  destruct (mergeDeep_defined _ _ Hp Hp) as [r Hr]. rewrite Hr.
  destruct (mergeDeep_objects_spec m m _ Hr) as (r' & [= <-] & Hspec).
  destruct (protoFree_object m Hp) as [_ Hm].
  do 2 f_equal. apply map_eq. intros k. specialize (Hspec k).
  destruct (m !! k) as [x|] eqn:Hk; [| done].
  destruct Hspec as (v & Ha & ->). f_equal.
  unfold Json.assigned in Ha.
  destruct (String.eqb k "__proto__"); [discriminate |].
  destruct (Json.isObject x) eqn:Hx.
  - rewrite Hk in Ha. rewrite (IH m k x eq_refl Hk (Hm _ _ Hk) Hx) in Ha.
    by injection Ha.
  - by injection Ha.
Qed.

Lemma X14_witness :
  Json.mergeDeep Json.defaultConfig Json.defaultConfig
  = Some Json.defaultConfig.
Proof.
  apply X14_merge_with_itself; vm_compute; reflexivity.
Defined.

(** X15. An object of the source that meets a value of the target which
    is not an object does not override it: the property becomes the spread
    of the old value, an empty object when that value is a number, a
    boolean or null, and nothing of the object of the source is kept. *)
Theorem X15_object_over_primitive_is_lost
    (tm sm : gmap string Json.Value) (k : string) (tv sv R : Json.Value) :
  tm !! k = Some tv → Json.isObject tv = false →
  sm !! k = Some sv → Json.isObject sv = true →
  Json.mergeDeep (Json.Object tm) (Json.Object sm) = Some R →
  Json.prop k R = Json.Object <$> Json.spread tv ∧
  (match tv with
   | Json.Null | Json.Bool _ | Json.Number _ => True
   | _ => False
   end → Json.prop k R = Some (Json.Object ∅)).
Proof.
  intros Htv Htobj Hsv Hsobj Hm.
  destruct (mergeDeep_objects_spec tm sm R Hm) as (r & -> & Hspec).
  specialize (Hspec k). rewrite Hsv in Hspec.
  destruct Hspec as (v & Ha & Hrk).
  unfold Json.assigned in Ha.
  destruct (String.eqb k "__proto__"); [discriminate |].
  rewrite Hsobj, Htv in Ha.
  rewrite mergeDeep_not_objects in Ha by (by rewrite Htobj).
  assert (Json.prop k (Json.Object r) = Json.Object <$> Json.spread tv) as Hp.
  { simpl. by rewrite Hrk, Ha. }
  split; [exact Hp |]. rewrite Hp. by destruct tv.
Qed.

Lemma X15_witness :
  Json.prop "s3"
    (default Json.Null
       (Json.mergeDeep (Json.obj [("s3", Json.Bool false)])
                       (Json.obj [("s3", Json.obj [("removeWhenDestroyed", Json.Bool true)])])))
  = Some (Json.Object ∅).
Proof.
  apply (X15_object_over_primitive_is_lost
           (list_to_map [("s3", Json.Bool false)])
           (list_to_map [("s3", Json.obj [("removeWhenDestroyed", Json.Bool true)])])
           "s3" (Json.Bool false)
           (Json.obj [("removeWhenDestroyed", Json.Bool true)]));
    reflexivity.
Defined.

(** X16. Deep merge along a path.  A leaf (anything but an object) that
    the source holds at a path shows up at that path of the merge, provided
    the target has, wherever it has a property on the way, an object there,
    and no name on the path is inherited from [Object.prototype]; and a
    value that the target holds at a path is still there in the merge when
    the source has no property at some step of that path and only objects
    before. *)
Theorem X16_merge_overrides_and_keeps_along_paths
    (t s R : Json.Value) (path : list string) (v : Json.Value) :
  Json.mergeDeep t s = Some R →
  (Json.get path s = Some v → Json.isObject v = false → path ≠ [] →
   Forall (fun k => k ∉ Json.inherited) path → Json.fits path t = true →
   Json.get path R = Some v) ∧
  (Json.get path t = Some v → Json.untouched path s = true →
   Json.get path R = Some v).
Proof.
  intros Hm. split.
  - intros. by eapply get_merge_override.
  - intros. by eapply get_merge_keep.
Qed.

Lemma X16_witness :
  ∃ R, Json.mergeDeep Json.defaultConfig
         (Json.obj [("dify", Json.obj [("migration",
                      Json.obj [("fromVersion", Json.Str "1.0.0")])])]) = Some R ∧
       Json.get ["dify"; "migration"; "fromVersion"] R = Some (Json.Str "1.0.0") ∧
       Json.get ["dify"; "migration"; "enabled"] R = Some (Json.Bool true).
Proof.
  destruct (mergeDeep_defined
              (Json.obj [("dify", Json.obj [("migration",
                           Json.obj [("fromVersion", Json.Str "1.0.0")])])])
              Json.defaultConfig eq_refl eq_refl) as [r Hr].
  exists (Json.Object r). split; [exact Hr |]. split.
  - apply (proj1 (X16_merge_overrides_and_keeps_along_paths _ _ _
                    ["dify"; "migration"; "fromVersion"] (Json.Str "1.0.0") Hr));
      try reflexivity; [discriminate |].
    repeat constructor; by apply (bool_decide_unpack _).
  - apply (proj2 (X16_merge_overrides_and_keeps_along_paths _ _ _
                    ["dify"; "migration"; "enabled"] (Json.Bool true) Hr));
      reflexivity.
Defined.

(** ** [loadConfig] *)

Lemma defaultConfig_spread :
  Json.Object <$> Json.spread Json.defaultConfig = Some Json.defaultConfig.
Proof.
  unfold Json.defaultConfig at 1, Json.obj at 1. cbn [Json.spread].
  destruct (bool_decide _) eqn:E; [vm_compute in E; discriminate |].
  reflexivity.
Qed.

(** X17. What [loadConfig] returns.  A missing file and a file that cannot
    be read or parsed throw the two errors of the loader, for the path
    given or else the default path; a file that holds [null] throws a type
    error instead; a file that holds any other value that is no object
    (a number, a string, a boolean, an array) is accepted and ignored: the
    default configuration is returned as it is.  For a file that holds an
    object (without [__proto__] properties) the result keeps every value of
    the default configuration on whose path the file says nothing, and holds
    every leaf of the file whose path fits the default configuration. *)
Theorem X17_loadConfig_outcomes
    (configPath : option string) (defaultPath : string)
    (file : string → Json.ConfigFile) :
  let path := JS.or_string configPath defaultPath in
  let result := (Json.loadConfig configPath defaultPath file).1 in
  match file path with
  | Json.Missing => result = Json.Fails (Json.ConfigNotFound path)
  | Json.Unreadable e => result = Json.Fails (Json.ConfigMalformed path e)
  | Json.Parsed c =>
      match c with
      | Json.Null => result = Json.Fails Json.NullConfig
      | Json.Object _ =>
          Json.protoFree c = true →
          ∃ R, result = Json.Config R ∧
               (∀ p v, Json.get p Json.defaultConfig = Some v →
                       Json.untouched p c = true → Json.get p R = Some v) ∧
               (∀ p v, Json.get p c = Some v → Json.isObject v = false →
                       p ≠ [] → Forall (fun k => k ∉ Json.inherited) p →
                       Json.fits p Json.defaultConfig = true →
                       Json.get p R = Some v)
      | _ => result = Json.Config Json.defaultConfig
      end
  end.
Proof.
  intros path result. subst path result. unfold Json.loadConfig.
  destruct (file (JS.or_string configPath defaultPath)) as [|e|c];
    [reflexivity | reflexivity |].
  destruct c as [|b|n|s|l|m]; cbn [fst]; try reflexivity;
    try (rewrite mergeDeep_not_objects by reflexivity;
         by rewrite defaultConfig_spread).
  intros Hp.
  destruct (mergeDeep_defined (Json.Object m) Json.defaultConfig eq_refl Hp)
    as [r Hr].
  rewrite Hr. eexists. split; [reflexivity |]. split.
  - intros p v Hd Hu. by apply (get_merge_keep p _ _ _ v Hr).
  - intros p v Hc Hv Hne Hin Hfit.
    by apply (get_merge_override p _ _ _ v Hr).
Qed.

Lemma X17_witness :
  ∃ R, (Json.loadConfig None "/deploy/config.json"
          (fun _ => Json.Parsed
             (Json.obj [("dify", Json.obj [("version", Json.Str "1.4.0")])]))).1
       = Json.Config R ∧
       Json.get ["dify"; "version"] R = Some (Json.Str "1.4.0") ∧
       Json.get ["dify"; "migration"; "enabled"] R = Some (Json.Bool true).
Proof.
  destruct (X17_loadConfig_outcomes None "/deploy/config.json"
              (fun _ => Json.Parsed
                 (Json.obj [("dify", Json.obj [("version", Json.Str "1.4.0")])]))
              eq_refl)
    as (R & HR & Hkeep & Hover).
  exists R. split; [exact HR |]. split.
  - apply Hover; try reflexivity; [discriminate |].
    repeat constructor; by apply (bool_decide_unpack _).
  - apply Hkeep; reflexivity.
Defined.

(** ** The construct and its inlined replacement *)

(** The job the later helm construct declares by itself is the job
    [DatabaseMigrationConstruct] declares for the props its older caller
    hands over. *)
Lemma inlined_job_is_construct_job props namespace dbSecretName jobName registry :
  inlineMigrationJob props namespace dbSecretName jobName registry
  = migrationJob (dbMigrationProps props namespace dbSecretName registry)
                 jobName registry.
Proof. reflexivity. Qed.

Lemma helm_addChild_fresh c s :
  helm_has_child (helmChildId c) s = false →
  helm_addChild c s
  = Ok {| helm_children := helm_children s ++ [c];
          helm_dependencies := helm_dependencies s;
          helm_console := helm_console s;
          helm_clockReads := helm_clockReads s |}.
Proof. intros H. unfold helm_addChild. by rewrite H. Qed.

(** X18. The two versions of the database-migration step, the older one
    that goes through [DatabaseMigrationConstruct] and the later one that
    declares the job itself, agree: on a helm construct where the ids
    DbSecret, DbMigration and DbMigrationJob are free both return, with the
    same secrets, the same jobs, the same console output and the same number
    of clock readings.  Called directly while [dbMigration.enabled] is not
    set they differ: the older one declares the secret and no job, the later
    one declares the job all the same. *)
Theorem X18_inlined_step_agrees_with_construct
    (props : DifyHelmConstructProps) (clk : Clock)
    (namespace dbPassword ns : string) (s : HelmScope) :
  helm_has_child "DbSecret" s = false →
  helm_has_child "DbMigration" s = false →
  helm_has_child "DbMigrationJob" s = false →
  (∃ s1 s2,
     databaseMigrationStep props clk namespace dbPassword ns s = Ok s1 ∧
     databaseMigrationStepInline props clk namespace dbPassword ns s = Ok s2 ∧
     helmJobs s1 = helmJobs s2 ∧ helmSecrets s1 = helmSecrets s2 ∧
     helm_console s1 = helm_console s2 ∧
     helm_clockReads s1 = helm_clockReads s2) ∧
  (JS.truthy_bool (dbMigration (dify (helm_config props)) ≫= dbMigrationEnabled)
   = false →
   ∃ s1 s2,
     createDatabaseMigration props clk namespace dbPassword ns s = Ok s1 ∧
     createDatabaseMigrationInline props clk namespace dbPassword ns s = Ok s2 ∧
     helmJobs s1 = helmJobs s ∧
     length (helmSecrets s1) = S (length (helmSecrets s)) ∧
     length (helmJobs s2) = S (length (helmJobs s))).
Proof.
  intros Hsecret Hmig Hjob.
  assert (Hold : ∀ on,
    dbMigration (dify (helm_config props)) ≫= dbMigrationEnabled = on →
    ∃ s1, createDatabaseMigration props clk namespace dbPassword ns s = Ok s1 ∧
          helmSecrets s1
          = helmSecrets s ++
            [{| secret_name := "dify-db-credentials";
                secret_namespace := namespace; secret_type := "Opaque";
                stringData :=
                  <["password" := dbPassword]>
                  (<["username" :=
                       JS.or_string (dbCredentialUsername (helm_postgresSQL props))
                                    "postgres"]> ∅) |}] ∧
          helmJobs s1
          = helmJobs s ++
            match on with
            | Some true =>
                [inlineMigrationJob props namespace "dify-db-credentials"
                   ("dify-db-migration-" +:+ pretty (Date_now clk (helm_clockReads s)))
                   (if JS.truthy_bool (isChinaRegion (helm_config props))
                    then "048912060910.dkr.ecr.cn-northwest-1.amazonaws.com.cn/dockerhub/"
                    else "")]
            | _ => []
            end ∧
          helm_console s1
          = helm_console s ++ ["🔄 配置数据库自动迁移..."; "✅ 数据库迁移配置完成"] ∧
          helm_clockReads s1
          = match on with
            | Some true => S (helm_clockReads s)
            | _ => helm_clockReads s
            end).
  { intros on Hon.
    unfold createDatabaseMigration, helm_addChild.
    change (helm_has_child _ (helm_log _ s)) with (helm_has_child "DbSecret" s).
    rewrite Hsecret. unfold helm_addDependency at 1. unfold helm_log at 1 2 3.
    cbn [helm_children helm_dependencies helm_console helm_clockReads].
    rewrite helm_has_child_app.
    change (existsb _ (helm_children s)) with (helm_has_child "DbMigration" s).
    rewrite Hmig. cbn [orb helmChildId].
    change ("DbSecret" =? "DbMigration")%string with false. cbv iota.
    unfold DatabaseMigrationConstruct, databaseMigrationBody.
    cbn [dm_config dbMigrationProps]. rewrite Hon.
    destruct on as [[]|]; (eexists; split; [reflexivity |]);
      unfold helmSecrets, helmJobs;
      cbn [helm_children helm_log helm_addDependency helm_console
           helm_clockReads];
      rewrite !omap_app, !flat_map_app; cbn;
      rewrite ?app_nil_r, <- ?app_assoc; repeat split. }
  assert (Hnew :
    ∃ s2, createDatabaseMigrationInline props clk namespace dbPassword ns s = Ok s2 ∧
          helmSecrets s2
          = helmSecrets s ++
            [{| secret_name := "dify-db-credentials";
                secret_namespace := namespace; secret_type := "Opaque";
                stringData :=
                  <["password" := dbPassword]>
                  (<["username" :=
                       JS.or_string (dbCredentialUsername (helm_postgresSQL props))
                                    "postgres"]> ∅) |}] ∧
          helmJobs s2
          = helmJobs s ++
            [inlineMigrationJob props namespace "dify-db-credentials"
               ("dify-db-migration-" +:+ pretty (Date_now clk (helm_clockReads s)))
               (if JS.truthy_bool (isChinaRegion (helm_config props))
                then "048912060910.dkr.ecr.cn-northwest-1.amazonaws.com.cn/dockerhub/"
                else "")] ∧
          helm_console s2
          = helm_console s ++ ["🔄 配置数据库自动迁移..."; "✅ 数据库迁移配置完成"] ∧
          helm_clockReads s2 = S (helm_clockReads s)).
  { unfold createDatabaseMigrationInline.
    rewrite helm_addChild_fresh by exact Hsecret.
    cbv zeta.
    rewrite helm_addChild_fresh.
    2:{ unfold helm_addDependency, helm_log.
        cbn [helm_children helm_dependencies helm_console helm_clockReads
             helmChildId].
        rewrite helm_has_child_app.
        change (existsb _ (helm_children s))
          with (helm_has_child "DbMigrationJob" s).
        by rewrite Hjob. }
    eexists. split; [reflexivity |].
    unfold helmSecrets, helmJobs;
      cbn [helm_children helm_log helm_addDependency helm_console
           helm_clockReads];
      rewrite !omap_app, !flat_map_app; cbn;
      rewrite ?app_nil_r, <- ?app_assoc; repeat split. }
  destruct (Hold _ eq_refl) as (s1 & H1 & Hs1 & Hj1 & Hc1 & Ht1).
  destruct Hnew as (s2 & H2 & Hs2 & Hj2 & Hc2 & Ht2).
  clear Hold. split.
  - unfold databaseMigrationStep, databaseMigrationStepInline.
    destruct (dbMigration (dify (helm_config props)) ≫= dbMigrationEnabled)
      as [[]|]; cbn [JS.truthy_bool];
      try (exists s, s; by repeat split).
    exists s1, s2. repeat split; congruence.
  - intros Hoff.
    exists s1, s2. split; [exact H1 |]. split; [exact H2 |].
    rewrite Hs1, Hj1, Hj2, !length_app.
    destruct (dbMigration (dify (helm_config props)) ≫= dbMigrationEnabled)
      as [[]|]; try discriminate; cbn; rewrite ?app_nil_r;
      repeat split; lia.
Qed.

Lemma X18_witness :
  ∃ s1 s2,
    databaseMigrationStep SampleHelm.props Sample.clock
      "dify" "secret" "Namespace" SampleHelm.empty = Ok s1 ∧
    databaseMigrationStepInline SampleHelm.props Sample.clock
      "dify" "secret" "Namespace" SampleHelm.empty = Ok s2 ∧
    helmJobs s1 = helmJobs s2.
Proof.
  destruct (proj1 (X18_inlined_step_agrees_with_construct
                     SampleHelm.props Sample.clock "dify" "secret" "Namespace"
                     SampleHelm.empty eq_refl eq_refl eq_refl))
    as (s1 & s2 & H1 & H2 & Hj & _).
  exists s1, s2. auto.
Defined.
